(** * kippetjes: the door controller of [motor.py]

    A shallow embedding of the state machine that drives the motorised door
    of a chicken coop: the [State] enumeration, the pure policies
    ([desired_state], [transition_state], [toggle_state]), the [Motor]
    driver and the [Door] controller with its sensor and button handlers.

    Python values are dynamically typed, exceptions escape through every
    call and the controller mutates one shared [Door] object; the embedding
    keeps all three: policies work on [pyobj], every operation returns an
    [outcome], and the methods of [Door] live in a state monad whose state
    survives a raised exception. *)

From Stdlib Require Import ZArith Bool List String Lia.
Import ListNotations.
Local Open Scope string_scope.
Local Open Scope Z_scope.

(** ** Data model *)

(** [class State(Enum)], lines 18-26. *)
Module State.

Inductive t : Set :=
| opening
| opening_stopped
| open
| closing
| closing_stopped
| closed
| unknown
| error.

(** The integer each member is declared with. *)
Definition value (s : t) : Z :=
  match s with
  | opening => 1
  | opening_stopped => 2
  | open => 3
  | closing => 4
  | closing_stopped => 5
  | closed => 6
  | unknown => 7
  | error => 8
  end.

(** Members of a plain [Enum] are singletons compared by identity. *)
Definition eqb (a b : t) : bool := value a =? value b.

Definition all : list t :=
  [opening; opening_stopped; open; closing; closing_stopped; closed;
   unknown; error].

End State.

(** The Python objects that reach the policies: a member of [State], [None]
    (the class-level default of [Door.state]) or an [int].  [State] is a
    plain [Enum], not an [IntEnum], so an [int] never equals a member. *)
Inductive pyobj : Set :=
| PyNone
| PyState (s : State.t)
| PyInt (n : Z).

Coercion PyState : State.t >-> pyobj.

(** Python's [==] on these objects. *)
Definition py_eq (a b : pyobj) : bool :=
  match a, b with
  | PyNone, PyNone => true
  | PyState x, PyState y => State.eqb x y
  | PyInt m, PyInt n => m =? n
  | _, _ => false
  end.

(** The exceptions the module can raise. *)
Inductive exn : Set :=
| ValueError
| NameError (name : string)
| TypeError.

(** What a call yields: a value, a raised exception, or the end of the
    model's budget (the observations handed to the busy-wait loop, the
    nesting depth handed to [__set_state]). *)
Inductive outcome (A : Type) : Type :=
| Return (a : A)
| Raise (e : exn)
| OutOfFuel.

Arguments Return {A} a.
Arguments Raise {A} e.
Arguments OutOfFuel {A}.

Definition raises {A : Type} (o : outcome A) : Prop := exists e, o = Raise e.

(** ** Time *)

(** An aware [datetime] is an instant: microseconds since the epoch.  A
    [timedelta] is a signed number of microseconds. *)
Definition datetime : Set := Z.
Definition timedelta : Set := Z.

Definition timedelta_seconds (s : Z) : timedelta := s * 1000000.

(** [datetime.time]: a time of day, compared field by field. *)
Record time : Set := mk_time {
  hour : Z;
  minute : Z;
  second : Z;
  microsecond : Z
}.

Definition time_lt (a b : time) : bool :=
  (hour a <? hour b)
  || ((hour a =? hour b)
      && ((minute a <? minute b)
          || ((minute a =? minute b)
              && ((second a <? second b)
                  || ((second a =? second b)
                      && (microsecond a <? microsecond b)))))).

(** [a > b] is [b < a]. *)
Definition time_gt (a b : time) : bool := time_lt b a.

(** ** Module-level names, lines 13-16 *)

Definition DEFAULT_SLEEP : Z := 10.

(** The names the module binds to a [timedelta].  A name is resolved when
    the expression that mentions it is evaluated; an unbound one raises
    [NameError] there. *)
Definition module_globals : list (string * timedelta) :=
  [ ("OPENING_THRESHOLD", timedelta_seconds 2);
    ("CLOSING_THRESHOLD", timedelta_seconds 2) ].

Fixpoint lookup (name : string) (env : list (string * timedelta))
  : option timedelta :=
  match env with
  | [] => None
  | (k, v) :: env' => if String.eqb k name then Some v else lookup name env'
  end.

Definition load_global (name : string) : outcome timedelta :=
  match lookup name module_globals with
  | Some v => Return v
  | None => Raise (NameError name)
  end.

(** [started + threshold]: adding a [timedelta] to [None] is a [TypeError]. *)
Definition datetime_add (started : option datetime) (delta : timedelta)
  : outcome datetime :=
  match started with
  | Some t => Return (t + delta)
  | None => Raise TypeError
  end.

(** ** Pure policies *)

(** [desired_state], lines 40-54.  The collaborators [SUN.sunrise()],
    [SUN.sunset()] and the local clock are inputs.  [effective_rise] is the
    rebinding of the local [rise] on lines 47-48. *)
Definition effective_rise (rise : time) : time :=
  if hour rise <? 6 then mk_time 6 0 0 0 else rise.

Definition desired_state (sunrise sunset now : time) : State.t :=
  let rise := effective_rise sunrise in
  let set := sunset in
  if time_gt now rise && time_lt now set then State.open else State.closed.

(** [transition_state], lines 57-67. *)
Definition transition_state (actual desired : pyobj) : outcome pyobj :=
  if py_eq actual State.error || py_eq actual desired then Return actual
  else if py_eq desired State.open then Return (PyState State.opening)
  else if py_eq desired State.closed then Return (PyState State.closing)
  else Raise ValueError.

(** [toggle_state], lines 70-84. *)
Definition toggle_state (current : pyobj) : outcome pyobj :=
  if py_eq current State.unknown || py_eq current State.error then
    Return (PyState State.open)
  else if py_eq current State.opening then
    Return (PyState State.opening_stopped)
  else if py_eq current State.opening_stopped || py_eq current State.open then
    Return (PyState State.closed)
  else if py_eq current State.closing then
    Return (PyState State.closing_stopped)
  else if py_eq current State.closing_stopped || py_eq current State.closed then
    Return (PyState State.open)
  else Raise ValueError.

(** [is_moving], lines 87-88. *)
Definition is_moving (state : pyobj) : bool :=
  py_eq state State.opening || py_eq state State.closing.

(** ** Outputs and inputs *)

(** A [gpiozero.LED] in blinking mode: on and off times in milliseconds. *)
Record pattern : Set := mk_pattern {
  on_time : Z;
  off_time : Z
}.

(** [blink], lines 29-37: four independent [if]s on the state; the LED is
    left as it is when none applies. *)
Definition blink (led : option pattern) (state : pyobj) : option pattern :=
  let led :=
    if py_eq state State.opening || py_eq state State.closing
    then Some (mk_pattern 500 100) else led in
  let led :=
    if py_eq state State.open || py_eq state State.closed
    then Some (mk_pattern 100 10000) else led in
  let led :=
    if py_eq state State.unknown then Some (mk_pattern 1000 1000) else led in
  let led :=
    if py_eq state State.error then Some (mk_pattern 100 200) else led in
  led.

(** What one operation observes of the outside world: the local clock and
    the level of the two limit switches. *)
Record World : Set := mk_world {
  now : datetime;
  upper_is_pressed : bool;
  lower_is_pressed : bool
}.

(** [class Motor], lines 92-109. *)
Module Motor.

Record t : Set := mk {
  running : bool;
  direction : bool;   (* False ~ going up; True ~ going down *)
  onoff : bool;       (* value of the on/off output pin *)
  dir : bool          (* value of the direction output pin *)
}.

(** A motor as [__init__] leaves it: class-level defaults, both pins low. *)
Definition init : t := mk false false false false.

Definition __update (self : t) : t :=
  let self := mk (running self) (direction self) (onoff self)
                 (direction self && running self) in
  mk (running self) (direction self) (running self) (dir self).

Definition set_state (self : t) (state : pyobj) : t :=
  let self := mk (py_eq state State.opening || py_eq state State.closing)
                 (direction self) (onoff self) (dir self) in
  let self := mk (running self) (py_eq state State.opening)
                 (onoff self) (dir self) in
  __update self.

End Motor.

(** [class Door], lines 113-222. *)
Module Door.

Record t : Set := mk {
  state : pyobj;
  desired_state : pyobj;
  closing_started : option datetime;
  opening_started : option datetime;
  led : option pattern;
  motor : Motor.t
}.

(** The attributes of a [Door] whose constructor has built the outputs
    and not yet called [__set_state]: the class-level [None]s. *)
Definition fresh : t := mk PyNone PyNone None None None Motor.init.

(** Attribute assignment. *)
Definition set_opening_started (v : option datetime) (self : t) : t :=
  mk (state self) (desired_state self) (closing_started self) v
     (led self) (motor self).

Definition set_closing_started (v : option datetime) (self : t) : t :=
  mk (state self) (desired_state self) v (opening_started self)
     (led self) (motor self).

Definition set_state_attr (v : pyobj) (self : t) : t :=
  mk v (desired_state self) (closing_started self) (opening_started self)
     (led self) (motor self).

Definition set_led (v : option pattern) (self : t) : t :=
  mk (state self) (desired_state self) (closing_started self)
     (opening_started self) v (motor self).

Definition set_motor (v : Motor.t) (self : t) : t :=
  mk (state self) (desired_state self) (closing_started self)
     (opening_started self) (led self) v.

(** A method: it reads and mutates [self] and returns or raises.  The
    mutations made before an exception stay. *)
Definition M (A : Type) : Type := t -> outcome A * t.

Definition ret {A : Type} (a : A) : M A := fun self => (Return a, self).

Definition bind {A B : Type} (m : M A) (k : A -> M B) : M B :=
  fun self =>
    match m self with
    | (Return a, self') => k a self'
    | (Raise e, self') => (Raise e, self')
    | (OutOfFuel, self') => (OutOfFuel, self')
    end.

Definition get : M t := fun self => (Return self, self).

Definition modify (f : t -> t) : M unit := fun self => (Return tt, f self).

(** A call of a function that does not touch [self]. *)
Definition lift {A : Type} (o : outcome A) : M A := fun self => (o, self).

Definition out_of_fuel {A : Type} : M A := fun self => (OutOfFuel, self).

Declare Scope door_scope.
Delimit Scope door_scope with door.
Notation "x <- m ;; k" := (bind m (fun x => k))
  (at level 61, m at next level, right associativity) : door_scope.
Notation "m ;; k" := (bind m (fun _ => k))
  (at level 61, right associativity) : door_scope.
Local Open Scope door_scope.

(** [now > started + THRESHOLD], with the threshold looked up by name:
    the name is loaded, then the sum is taken, then the comparison. *)
Definition overdue (now : datetime) (started : option datetime)
    (threshold : string) : outcome bool :=
  match load_global threshold with
  | Return delta =>
      match datetime_add started delta with
      | Return limit => Return (limit <? now)
      | Raise e => Raise e
      | OutOfFuel => OutOfFuel
      end
  | Raise e => Raise e
  | OutOfFuel => OutOfFuel
  end.

(** [__check_blocked], lines 183-189, over the [__set_state] it calls
    back.  The conditions are short-circuit [and]s: the sensor is read and
    the deadline computed only when the state test passed. *)
Definition check_blocked_with (set_state : pyobj -> M Z) (w : World)
  : M Z :=
  self <- get ;;
  blocked <- (if py_eq (state self) State.opening && lower_is_pressed w
              then lift (overdue (now w) (opening_started self)
                                 "OPENING_THRESHOLD")
              else ret false) ;;
  if (blocked : bool) then set_state State.error
  else
    self <- get ;;
    blocked <- (if py_eq (state self) State.closing && upper_is_pressed w
                then lift (overdue (now w) (closing_started self)
                                   "CLOSING_THRESHOLD")
                else ret false) ;;
    if (blocked : bool) then set_state State.error
    else ret 0.

(** [__set_state], lines 160-181.  [__set_state] and [__check_blocked]
    call each other; [depth] bounds the nesting of these calls. *)
Fixpoint set_state_depth (depth : nat) (w : World) (st : pyobj) : M Z :=
  match depth with
  | O => out_of_fuel
  | S depth' =>
      self <- get ;;
      if py_eq (state self) st then
        if is_moving st then check_blocked_with (set_state_depth depth' w) w
        else ret DEFAULT_SLEEP
      else
        (* update self.opening_started and self.closing_started *)
        modify (set_opening_started
                  (if py_eq st State.opening then Some (now w) else None)) ;;
        modify (set_closing_started
                  (if py_eq st State.closing then Some (now w) else None)) ;;
        (* apply state change *)
        modify (set_state_attr st) ;;
        modify (fun self => set_led (blink (led self) st) self) ;;
        modify (fun self => set_motor (Motor.set_state (motor self) st) self) ;;
        ret 0
  end.

(** The nesting is at most two deep: [__check_blocked] only calls
    [__set_state(State.error)] from a moving state, which takes the
    state-change path (see [set_state_depth_enough]). *)
Definition __set_state (w : World) (st : pyobj) : M Z :=
  set_state_depth 2 w st.

Definition __check_blocked (w : World) : M Z :=
  check_blocked_with (__set_state w) w.

(** [__init__], lines 119-145. *)
Definition __init__ (w : World) : outcome Z * t :=
  let s :=
    if upper_is_pressed w then State.open
    else if lower_is_pressed w then State.closed
    else State.unknown in
  __set_state w s fresh.

(** [__set_desired], lines 154-158.  Every turn of the busy-wait loop
    observes the world afresh; [ws] holds the observations still to come,
    and the loop runs out of fuel when it needs one more than [ws] has. *)
Fixpoint __set_desired (ws : list World) (desired : pyobj) : M unit :=
  self <- get ;;
  if negb (py_eq (state self) desired) then
    next <- lift (transition_state (state self) desired) ;;
    match ws with
    | [] => out_of_fuel
    | w :: ws' =>
        __set_state w next ;;
        self <- get ;;
        if py_eq (state self) State.error then ret tt
        else __set_desired ws' desired
    end
  else ret tt.

(** [__toggle], lines 191-192: the button callback. *)
Definition __toggle (ws : list World) : M unit :=
  self <- get ;;
  desired <- lift (toggle_state (state self)) ;;
  __set_desired ws desired.

(** [__set_open], lines 194-207: the upper limit switch callback. *)
Definition __set_open (w : World) : M unit :=
  self <- get ;;
  if py_eq (state self) State.closing then
    late <- lift (overdue (now w) (closing_started self)
                          "CLOSING_THESHOLD") ;;
    (if (late : bool) then __set_state w State.error ;; ret tt else ret tt)
  else
    __set_state w State.open ;; ret tt.

(** [__set_closed], lines 209-222: the lower limit switch callback. *)
Definition __set_closed (w : World) : M unit :=
  self <- get ;;
  if py_eq (state self) State.opening then
    late <- lift (overdue (now w) (opening_started self)
                          "OPENING_THRESHOLD") ;;
    (if (late : bool) then __set_state w State.error ;; ret tt else ret tt)
  else
    __set_state w State.closed ;; ret tt.

End Door.

(** One turn of [run], lines 149-152: the schedule is polled and the door
    driven toward what it says. *)
Definition run_once (sunrise sunset : time) (clock : time)
    (ws : list World) : Door.M unit :=
  Door.__set_desired ws (desired_state sunrise sunset clock).

(** ** Specification vocabulary *)

(** Microseconds since midnight, for a time of day whose fields are in
    range. *)
Definition since_midnight (t : time) : Z :=
  ((hour t * 60 + minute t) * 60 + second t) * 1000000 + microsecond t.

Definition time_in_range (t : time) : Prop :=
  0 <= hour t < 24 /\ 0 <= minute t < 60 /\ 0 <= second t < 60
  /\ 0 <= microsecond t < 1000000.

(** The transition step as section 4.2 words it: the fixed points, then the
    two targets the schedule can ask for.  No other case yields a state. *)
Inductive transition_ref : pyobj -> pyobj -> pyobj -> Prop :=
| ref_fixed (actual desired : pyobj) :
    actual = PyState State.error \/ actual = desired ->
    transition_ref actual desired actual
| ref_open (actual : pyobj) :
    actual <> PyState State.error ->
    actual <> PyState State.open ->
    transition_ref actual State.open State.opening
| ref_closed (actual : pyobj) :
    actual <> PyState State.error ->
    actual <> PyState State.closed ->
    transition_ref actual State.closed State.closing.

(** The door after the state-change path of [__set_state] (lines 166-179)
    has run for [st] under the observation [w]. *)
Definition changed (w : World) (st : pyobj) (d : Door.t) : Door.t :=
  Door.mk st (Door.desired_state d)
          (if py_eq st State.closing then Some (now w) else None)
          (if py_eq st State.opening then Some (now w) else None)
          (blink (Door.led d) st)
          (Motor.set_state (Door.motor d) st).

Definition is_set (started : option datetime) : Prop := started <> None.

(** The timestamp invariant of the data model. *)
Definition timestamps_inv (d : Door.t) : Prop :=
  (is_set (Door.opening_started d) <-> Door.state d = PyState State.opening)
  /\ (is_set (Door.closing_started d) <-> Door.state d = PyState State.closing)
  /\ ~ (is_set (Door.opening_started d) /\ is_set (Door.closing_started d)).

(** The doors the program can hold: every assignment to [state],
    [opening_started] and [closing_started] is made by [__set_state], first
    by the constructor on the fresh object. *)
Inductive reachable : Door.t -> Prop :=
| reach_fresh : reachable Door.fresh
| reach_set_state (d : Door.t) (w : World) (st : pyobj) :
    reachable d -> reachable (snd (Door.__set_state w st d)).

(** The motor outputs are a function of the state (data model, Motor). *)
Definition motor_follows (d : Door.t) : Prop :=
  Motor.running (Door.motor d) = is_moving (Door.state d)
  /\ Motor.onoff (Door.motor d) = is_moving (Door.state d)
  /\ Motor.direction (Door.motor d) = py_eq (Door.state d) State.opening
  /\ Motor.dir (Door.motor d) = py_eq (Door.state d) State.opening.

(** The motor runs: the on/off pin is high. *)
Definition motor_runs (d : Door.t) : Prop :=
  Motor.running (Door.motor d) = true /\ Motor.onoff (Door.motor d) = true.

(** An observation that shows the door blocked on its way up since [t0]:
    the lower switch is asserted and the opening threshold has passed
    (the condition of line 185). *)
Definition blocked_opening (t0 : datetime) (w : World) : bool :=
  lower_is_pressed w && (t0 + timedelta_seconds 2 <? now w).

(** The same on the way down (the condition of line 187). *)
Definition blocked_closing (t0 : datetime) (w : World) : bool :=
  upper_is_pressed w && (t0 + timedelta_seconds 2 <? now w).

(** A state [blink] has a pattern for: every member but the two stopped
    ones. *)
Definition has_pattern (s : State.t) : bool :=
  negb (State.eqb s State.opening_stopped
        || State.eqb s State.closing_stopped).

(** A door at rest with the motor off and no motion timestamp. *)
Definition at_rest (d : Door.t) : Prop :=
  Motor.running (Door.motor d) = false
  /\ Motor.onoff (Door.motor d) = false
  /\ Motor.dir (Door.motor d) = false
  /\ Door.opening_started d = None
  /\ Door.closing_started d = None.

(** ** Example doors *)

(** An instant to start the examples from. *)
Definition t_start : datetime := 1793786400000000.

(** A door built with the lower switch pressed (so [Closed]) and sent
    [Opening] at [t_start]. *)
Definition door_opening : Door.t :=
  let w := mk_world t_start false true in
  snd (Door.__set_state w State.opening (snd (Door.__init__ w))).

(** A door built with the upper switch pressed (so [Open]) and sent
    [Closing] at [t_start]. *)
Definition door_closing : Door.t :=
  let w := mk_world t_start true false in
  snd (Door.__set_state w State.closing (snd (Door.__init__ w))).

(** The upper switch asserts 2.1 seconds after [t_start]. *)
Definition upper_after_2100ms : World :=
  mk_world (t_start + 2100000) true false.

(** The lower switch asserts 2.1 seconds after [t_start]. *)
Definition lower_after_2100ms : World :=
  mk_world (t_start + 2100000) false true.

(** The two switches at [t_start], and the doors the constructor builds
    from them. *)
Definition lower_at_start : World := mk_world t_start false true.
Definition upper_at_start : World := mk_world t_start true false.
Definition door_closed : Door.t := snd (Door.__init__ lower_at_start).
Definition door_open : Door.t := snd (Door.__init__ upper_at_start).

(** ** Equality tests decide equality *)

Lemma State_eqb_spec (a b : State.t) : reflect (a = b) (State.eqb a b).
Proof.
  destruct a, b; (left; reflexivity) || (right; discriminate).
Qed.

Lemma py_eq_spec (a b : pyobj) : reflect (a = b) (py_eq a b).
Proof.
  destruct a as [|x|m], b as [|y|n]; simpl;
    try (right; discriminate); try (left; reflexivity).
  - destruct (State_eqb_spec x y) as [->|ne].
    + left; reflexivity.
    + right; intros [= e]; exact (ne e).
  - destruct (Z.eqb_spec m n) as [->|ne].
    + left; reflexivity.
    + right; intros [= e]; exact (ne e).
Qed.

Lemma py_eq_refl (a : pyobj) : py_eq a a = true.
Proof. destruct (py_eq_spec a a); congruence. Qed.

Lemma py_eq_true (a b : pyobj) : py_eq a b = true <-> a = b.
Proof. destruct (py_eq_spec a b); split; congruence. Qed.

Lemma py_eq_false (a b : pyobj) : py_eq a b = false <-> a <> b.
Proof. destruct (py_eq_spec a b); split; congruence. Qed.

(** Split on every equality test the goal branches on. *)
Ltac py_cases :=
  repeat match goal with
         | |- context [py_eq ?a ?b] =>
             destruct (py_eq_spec a b); subst; simpl
         end.

Lemma raises_Raise {A : Type} (e : exn) : raises (@Raise A e).
Proof. exists e; reflexivity. Qed.

Lemma raises_Return {A : Type} (a : A) : ~ raises (Return a).
Proof. intros [e H]; discriminate H. Qed.

Create HintDb door.
#[local] Hint Resolve raises_Raise : door.

(** ** The transition step *)

Lemma transition_state_fixed (actual desired : pyobj) :
  actual = PyState State.error \/ actual = desired ->
  transition_state actual desired = Return actual.
Proof.
  unfold transition_state; intros [-> | ->].
  - reflexivity.
  - rewrite py_eq_refl, orb_true_r; reflexivity.
Qed.

Lemma transition_state_open (actual : pyobj) :
  actual <> PyState State.error ->
  actual <> PyState State.open ->
  transition_state actual State.open = Return (PyState State.opening).
Proof.
  unfold transition_state; intros ne no.
  apply py_eq_false in ne, no; rewrite ne, no; reflexivity.
Qed.

Lemma transition_state_closed (actual : pyobj) :
  actual <> PyState State.error ->
  actual <> PyState State.closed ->
  transition_state actual State.closed = Return (PyState State.closing).
Proof.
  unfold transition_state; intros ne nc.
  apply py_eq_false in ne, nc; rewrite ne, nc; reflexivity.
Qed.

(** C4: [transition_state] is the reference transition step.  It returns
    [actual] unchanged when [actual] is [Error] or equals [desired],
    [Opening] when [desired] is [Open] and [actual] is neither [Error] nor
    [Open], [Closing] when [desired] is [Closed] and [actual] is neither
    [Error] nor [Closed], and returns a state in no other case. *)
Theorem transition_state_refines (actual desired next : pyobj) :
  transition_state actual desired = Return next <->
  transition_ref actual desired next.
Proof.
  split.
  - unfold transition_state.
    destruct (py_eq_spec actual State.error) as [->|ne]; simpl.
    { intros [= <-]; apply ref_fixed; left; reflexivity. }
    destruct (py_eq_spec actual desired) as [->|nd]; simpl.
    { intros [= <-]; apply ref_fixed; right; reflexivity. }
    destruct (py_eq_spec desired State.open) as [->|no].
    { intros [= <-]; apply ref_open; assumption. }
    destruct (py_eq_spec desired State.closed) as [->|nc].
    { intros [= <-]; apply ref_closed; assumption. }
    discriminate.
  - intros [a d fixed | a ne no | a ne nc].
    + apply transition_state_fixed; assumption.
    + apply transition_state_open; assumption.
    + apply transition_state_closed; assumption.
Qed.

(** ** Contract violations *)

Lemma toggle_state_member (s : State.t) :
  exists next : State.t, toggle_state s = Return (PyState next).
Proof. destruct s; eexists; reflexivity. Qed.

(** C3: [transition_state] raises exactly when [actual] is not [Error],
    differs from [desired], and [desired] is neither [Open] nor [Closed];
    [toggle_state] raises exactly when [current] is not one of the eight
    members of [State], hence for no member. *)
Theorem contract_violation_iff :
  (forall actual desired : pyobj,
      raises (transition_state actual desired) <->
      (actual <> PyState State.error /\ actual <> desired /\
       desired <> PyState State.open /\ desired <> PyState State.closed))
  /\ (forall current : pyobj,
         raises (toggle_state current) <->
         (forall s : State.t, In s State.all -> current <> PyState s))
  /\ (forall s : State.t,
         In s State.all /\ (raises (toggle_state s) <-> False)).
Proof.
  split; [| split].
  - intros actual desired; unfold transition_state; split.
    + py_cases; intros H; try (apply raises_Return in H; contradiction).
      repeat split; assumption.
    + intros (ne & nd & no & nc).
      apply py_eq_false in ne, nd, no, nc.
      rewrite ne, nd, no, nc; simpl; auto with door.
  - intros current; split.
    + intros H s _ ->.
      destruct (toggle_state_member s) as [next e].
      rewrite e in H; apply raises_Return in H; exact H.
    + intros H; destruct current as [|s|n].
      * apply raises_Raise.
      * exfalso; apply (H s); [destruct s; simpl; tauto | reflexivity].
      * apply raises_Raise.
  - intros s; split.
    + destruct s; simpl; tauto.
    + destruct (toggle_state_member s) as [next e]; rewrite e; split.
      * apply raises_Return.
      * contradiction.
Qed.

(** ** The toggle policy *)

(** C8: [toggle_state] is total over the eight states and follows the
    table: [Unknown], [Error] to [Open]; [Opening] to [OpeningStopped];
    [OpeningStopped], [Open] to [Closed]; [Closing] to [ClosingStopped];
    [ClosingStopped], [Closed] to [Open].  From [Open] one press gives
    [Closed], not [Open]; a second press gives [Open] again. *)
Theorem toggle_state_table :
  (forall s : State.t, exists next : State.t,
        toggle_state s = Return (PyState next))
  /\ toggle_state State.unknown = Return (PyState State.open)
  /\ toggle_state State.error = Return (PyState State.open)
  /\ toggle_state State.opening = Return (PyState State.opening_stopped)
  /\ toggle_state State.opening_stopped = Return (PyState State.closed)
  /\ toggle_state State.open = Return (PyState State.closed)
  /\ toggle_state State.closing = Return (PyState State.closing_stopped)
  /\ toggle_state State.closing_stopped = Return (PyState State.open)
  /\ toggle_state State.closed = Return (PyState State.open)
  /\ toggle_state State.open <> Return (PyState State.open)
  /\ (exists mid : pyobj,
         toggle_state State.open = Return mid
         /\ mid = PyState State.closed
         /\ toggle_state mid = Return (PyState State.open)).
Proof.
  split; [exact toggle_state_member |].
  repeat (split; [reflexivity |]).
  split; [discriminate |].
  exists (PyState State.closed); repeat split.
Qed.

(** C10: whenever [toggle_state] returns, the state it returns is one of
    [Open], [Closed], [OpeningStopped], [ClosingStopped]; a press never
    asks for [Unknown] or [Error]. *)
Theorem toggle_state_range (current next : pyobj) :
  toggle_state current = Return next ->
  In next [PyState State.open; PyState State.closed;
           PyState State.opening_stopped; PyState State.closing_stopped]
  /\ next <> PyState State.unknown
  /\ next <> PyState State.error.
Proof.
  unfold toggle_state.
  repeat match goal with
         | |- context [if ?c then _ else _] => destruct c
         end;
    intros [= <-] || discriminate;
    (split; [simpl; tauto | split; discriminate]).
Qed.

Lemma toggle_state_range_witness :
  In (PyState State.opening_stopped)
     [PyState State.open; PyState State.closed;
      PyState State.opening_stopped; PyState State.closing_stopped]
  /\ PyState State.opening_stopped <> PyState State.unknown
  /\ PyState State.opening_stopped <> PyState State.error.
Proof.
  apply (toggle_state_range State.opening State.opening_stopped).
  reflexivity.
Defined.

(** ** The desired-state policy *)

Lemma time_lt_since_midnight (a b : time) :
  time_in_range a -> time_in_range b ->
  (time_lt a b = true <-> since_midnight a < since_midnight b).
Proof.
  unfold time_in_range, time_lt, since_midnight.
  destruct a as [ha ma sa ua], b as [hb mb sb ub]; simpl.
  intros (Hha & Hma & Hsa & Hua) (Hhb & Hmb & Hsb & Hub).
  destruct (Z.ltb_spec ha hb), (Z.eqb_spec ha hb),
           (Z.ltb_spec ma mb), (Z.eqb_spec ma mb),
           (Z.ltb_spec sa sb), (Z.eqb_spec sa sb),
           (Z.ltb_spec ua ub); simpl; split; intros; try lia; try congruence.
Qed.

Lemma time_lt_hour (a b : time) : time_lt a b = true -> hour a <= hour b.
Proof.
  unfold time_lt.
  destruct (Z.ltb_spec (hour a) (hour b)), (Z.eqb_spec (hour a) (hour b));
    simpl; intros; try lia; discriminate.
Qed.

Lemma effective_rise_floor (sunrise : time) : 6 <= hour (effective_rise sunrise).
Proof.
  unfold effective_rise.
  destruct (Z.ltb_spec (hour sunrise) 6); simpl; lia.
Qed.

(** C7: the effective sunrise is 06:00 when the sunrise's hour is below 6
    and the sunrise itself otherwise; the desired state is [Open] when the
    clock is strictly between the effective sunrise and the sunset, and
    [Closed] otherwise.  (So no opening is asked for before six.) *)
Theorem desired_state_policy (sunrise sunset clock : time) :
  ((hour sunrise < 6 /\ effective_rise sunrise = mk_time 6 0 0 0)
   \/ (6 <= hour sunrise /\ effective_rise sunrise = sunrise))
  /\ (desired_state sunrise sunset clock = State.open <->
      time_lt (effective_rise sunrise) clock = true
      /\ time_lt clock sunset = true)
  /\ (desired_state sunrise sunset clock = State.closed <->
      ~ (time_lt (effective_rise sunrise) clock = true
         /\ time_lt clock sunset = true))
  /\ (desired_state sunrise sunset clock = State.open -> 6 <= hour clock).
Proof.
  assert (between :
            desired_state sunrise sunset clock = State.open <->
            time_lt (effective_rise sunrise) clock = true
            /\ time_lt clock sunset = true).
  { unfold desired_state, time_gt.
    destruct (time_lt (effective_rise sunrise) clock), (time_lt clock sunset);
      simpl; split; intros; intuition congruence. }
  split; [| split; [exact between | split]].
  - unfold effective_rise.
    destruct (Z.ltb_spec (hour sunrise) 6); [left | right];
      (split; [assumption | reflexivity]).
  - rewrite <- between; unfold desired_state.
    destruct (time_gt _ _ && time_lt _ _); split; intros;
      congruence.
  - intros H; apply between in H; destruct H as [H _].
    apply time_lt_hour in H.
    pose proof (effective_rise_floor sunrise); lia.
Qed.

(** The two clamp examples of the testable properties. *)
Example effective_rise_0530 :
  effective_rise (mk_time 5 30 0 0) = mk_time 6 0 0 0.
Proof. reflexivity. Qed.

Example effective_rise_0700 :
  effective_rise (mk_time 7 0 0 0) = mk_time 7 0 0 0.
Proof. reflexivity. Qed.

(** ** Applying a state *)

(** [__check_blocked] only needs its callback on a moving door, where the
    callback takes the state-change path whatever depth is left. *)
Lemma check_blocked_with_depth (n : nat) (w : World) (d : Door.t) :
  Door.check_blocked_with (Door.set_state_depth (S n) w) w d =
  Door.check_blocked_with (Door.set_state_depth 1 w) w d.
Proof.
  unfold Door.check_blocked_with, Door.bind, Door.get, Door.lift, Door.ret.
  destruct (py_eq (Door.state d) State.opening && lower_is_pressed w);
    [destruct (Door.overdue _ _ _) as [[|]| |]; try reflexivity |];
    (destruct (py_eq (Door.state d) State.closing && upper_is_pressed w);
     [destruct (Door.overdue _ _ _) as [[|]| |] |]; reflexivity).
Qed.

(** One level of [__set_state], with its three paths side by side. *)
Lemma set_state_depth_S (n : nat) (w : World) (st : pyobj) (d : Door.t) :
  Door.set_state_depth (S n) w st d =
  if py_eq (Door.state d) st then
    if is_moving st
    then Door.check_blocked_with (Door.set_state_depth n w) w d
    else (Return DEFAULT_SLEEP, d)
  else (Return 0, changed w st d).
Proof.
  cbn [Door.set_state_depth]; unfold Door.bind at 1, Door.get at 1.
  destruct (py_eq (Door.state d) st); [destruct (is_moving st) |];
    reflexivity.
Qed.

(** The state-change path: taken whenever the requested state differs. *)
Lemma set_state_change (w : World) (st : pyobj) (d : Door.t) :
  Door.state d <> st ->
  Door.__set_state w st d = (Return 0, changed w st d).
Proof.
  intros ne; apply py_eq_false in ne.
  unfold Door.__set_state; rewrite set_state_depth_S, ne; reflexivity.
Qed.

(** The fast path on a state that is not moving. *)
Lemma set_state_stable (w : World) (st : pyobj) (d : Door.t) :
  Door.state d = st -> is_moving st = false ->
  Door.__set_state w st d = (Return DEFAULT_SLEEP, d).
Proof.
  intros <- still.
  unfold Door.__set_state; rewrite set_state_depth_S, py_eq_refl, still.
  reflexivity.
Qed.

(** The fast path on a moving state: the blocked check. *)
Lemma set_state_moving (w : World) (st : pyobj) (d : Door.t) :
  Door.state d = st -> is_moving st = true ->
  Door.__set_state w st d = Door.__check_blocked w d.
Proof.
  intros <- moving.
  unfold Door.__set_state at 1; rewrite set_state_depth_S, py_eq_refl, moving.
  unfold Door.__check_blocked, Door.__set_state.
  symmetry; apply (check_blocked_with_depth 1).
Qed.

(** Two levels of nesting are enough for every call. *)
Lemma set_state_depth_enough (n : nat) (w : World) (st : pyobj) (d : Door.t) :
  Door.set_state_depth (2 + n) w st d = Door.__set_state w st d.
Proof.
  unfold Door.__set_state.
  change (2 + n)%nat with (S (S n)).
  rewrite (set_state_depth_S (S n)), (set_state_depth_S 1).
  destruct (py_eq (Door.state d) st); [| reflexivity].
  destruct (is_moving st); [| reflexivity].
  apply check_blocked_with_depth.
Qed.

(** ** Blocked detection *)

Lemma overdue_opening (clock t0 : datetime) :
  Door.overdue clock (Some t0) "OPENING_THRESHOLD" =
  Return (t0 + timedelta_seconds 2 <? clock).
Proof. reflexivity. Qed.

Lemma overdue_closing (clock t0 : datetime) :
  Door.overdue clock (Some t0) "CLOSING_THRESHOLD" =
  Return (t0 + timedelta_seconds 2 <? clock).
Proof. reflexivity. Qed.

(** The name read on line 203 is bound nowhere in the module. *)
Lemma overdue_unbound (clock : datetime) (started : option datetime) :
  Door.overdue clock started "CLOSING_THESHOLD" =
  Raise (NameError "CLOSING_THESHOLD").
Proof. reflexivity. Qed.

Lemma changed_state (w : World) (st : pyobj) (d : Door.t) :
  Door.state (changed w st d) = st.
Proof. reflexivity. Qed.

Lemma check_blocked_opening (w : World) (d : Door.t) (t0 : datetime) :
  Door.state d = PyState State.opening ->
  lower_is_pressed w = true ->
  Door.opening_started d = Some t0 ->
  Door.__check_blocked w d =
  (Return 0,
   if t0 + timedelta_seconds 2 <? now w then changed w State.error d else d).
Proof.
  intros st low started.
  unfold Door.__check_blocked, Door.check_blocked_with,
    Door.bind, Door.get, Door.lift, Door.ret.
  rewrite st, low, started, overdue_opening.
  destruct (t0 + timedelta_seconds 2 <? now w);
    cbn -[Door.__set_state timedelta_seconds].
  - apply set_state_change; rewrite st; discriminate.
  - try rewrite st; reflexivity.
Qed.

Lemma check_blocked_closing (w : World) (d : Door.t) (t0 : datetime) :
  Door.state d = PyState State.closing ->
  upper_is_pressed w = true ->
  Door.closing_started d = Some t0 ->
  Door.__check_blocked w d =
  (Return 0,
   if t0 + timedelta_seconds 2 <? now w then changed w State.error d else d).
Proof.
  intros st up started.
  unfold Door.__check_blocked, Door.check_blocked_with,
    Door.bind, Door.get, Door.lift, Door.ret.
  rewrite st; cbn -[Door.__set_state Door.overdue timedelta_seconds].
  rewrite st, up, started, overdue_closing.
  destruct (t0 + timedelta_seconds 2 <? now w);
    cbn -[Door.__set_state timedelta_seconds].
  - apply set_state_change; rewrite st; discriminate.
  - reflexivity.
Qed.

Lemma check_blocked_idle (w : World) (d : Door.t) :
  is_moving (Door.state d) = false ->
  Door.__check_blocked w d = (Return 0, d).
Proof.
  unfold is_moving; intros idle; apply orb_false_elim in idle as [no nc].
  unfold Door.__check_blocked, Door.check_blocked_with,
    Door.bind, Door.get, Door.lift, Door.ret.
  rewrite no; cbn -[Door.__set_state Door.overdue].
  rewrite nc; reflexivity.
Qed.

(** C5: the blocked check on a door that is [Opening] with the lower
    sensor asserted returns with the state forced to [Error] exactly when
    the clock is strictly past [opening_started] plus two seconds, and
    leaves the door untouched up to and including that instant; the same
    holds for [Closing], the upper sensor and [closing_started]; on a door
    that is not moving the check changes nothing. *)
Theorem check_blocked_spec (w : World) (d : Door.t) :
  (forall t0 : datetime,
      Door.state d = PyState State.opening ->
      lower_is_pressed w = true ->
      Door.opening_started d = Some t0 ->
      fst (Door.__check_blocked w d) = Return 0
      /\ (Door.state (snd (Door.__check_blocked w d)) = PyState State.error
          <-> t0 + timedelta_seconds 2 < now w)
      /\ (now w <= t0 + timedelta_seconds 2 ->
          snd (Door.__check_blocked w d) = d))
  /\ (forall t0 : datetime,
         Door.state d = PyState State.closing ->
         upper_is_pressed w = true ->
         Door.closing_started d = Some t0 ->
         fst (Door.__check_blocked w d) = Return 0
         /\ (Door.state (snd (Door.__check_blocked w d)) = PyState State.error
             <-> t0 + timedelta_seconds 2 < now w)
         /\ (now w <= t0 + timedelta_seconds 2 ->
             snd (Door.__check_blocked w d) = d))
  /\ (Door.state d <> PyState State.opening ->
      Door.state d <> PyState State.closing ->
      Door.__check_blocked w d = (Return 0, d)).
Proof.
  split; [| split].
  - intros t0 st low started.
    rewrite (check_blocked_opening w d t0 st low started); cbn [fst snd].
    destruct (Z.ltb_spec (t0 + timedelta_seconds 2) (now w)) as [late|early].
    + rewrite changed_state; repeat split; auto; lia.
    + repeat split; auto; try lia.
      rewrite st; discriminate.
  - intros t0 st up started.
    rewrite (check_blocked_closing w d t0 st up started); cbn [fst snd].
    destruct (Z.ltb_spec (t0 + timedelta_seconds 2) (now w)) as [late|early].
    + rewrite changed_state; repeat split; auto; lia.
    + repeat split; auto; try lia.
      rewrite st; discriminate.
  - intros no nc; apply check_blocked_idle.
    unfold is_moving; apply py_eq_false in no, nc; rewrite no, nc.
    reflexivity.
Qed.

(** The scenario of the testable properties: still [Opening] at exactly
    two seconds, [Error] one microsecond later. *)
Example check_blocked_at_threshold :
  Door.__check_blocked (mk_world (t_start + 2000000) false true) door_opening
  = (Return 0, door_opening).
Proof. reflexivity. Qed.

Example check_blocked_past_threshold :
  Door.state
    (snd (Door.__check_blocked (mk_world (t_start + 2000001) false true)
            door_opening))
  = PyState State.error.
Proof. reflexivity. Qed.

(** ** Sensor handlers *)

(** Forcing a rest state [st] leaves the door in [st], whatever it was. *)
Lemma set_state_forces (w : World) (st : pyobj) (d : Door.t) :
  is_moving st = false ->
  fst (Door.__set_state w st d) <> OutOfFuel
  /\ (exists r : Z, fst (Door.__set_state w st d) = Return r)
  /\ Door.state (snd (Door.__set_state w st d)) = st.
Proof.
  intros still.
  destruct (py_eq_spec (Door.state d) st) as [same|differs].
  - rewrite (set_state_stable w st d same still); simpl.
    repeat split; [discriminate | eexists; reflexivity | exact same].
  - rewrite (set_state_change w st d differs); simpl.
    repeat split; [discriminate | eexists; reflexivity].
Qed.

Lemma set_closed_opening (w : World) (d : Door.t) (t0 : datetime) :
  Door.state d = PyState State.opening ->
  Door.opening_started d = Some t0 ->
  Door.__set_closed w d =
  (Return tt,
   if t0 + timedelta_seconds 2 <? now w then changed w State.error d else d).
Proof.
  intros st started.
  unfold Door.__set_closed, Door.bind at 1, Door.get.
  rewrite st; cbn -[Door.__set_state Door.overdue timedelta_seconds].
  unfold Door.bind at 1, Door.lift.
  rewrite started, overdue_opening.
  destruct (t0 + timedelta_seconds 2 <? now w); [| reflexivity].
  unfold Door.bind, Door.ret.
  rewrite set_state_change by (rewrite st; discriminate).
  reflexivity.
Qed.

Lemma set_closed_other (w : World) (d : Door.t) :
  Door.state d <> PyState State.opening ->
  Door.__set_closed w d =
  (Return tt, snd (Door.__set_state w State.closed d)).
Proof.
  intros ne; apply py_eq_false in ne.
  unfold Door.__set_closed, Door.bind, Door.get, Door.ret.
  rewrite ne.
  destruct (set_state_forces w State.closed d eq_refl) as (_ & [r ok] & _).
  destruct (Door.__set_state w State.closed d) as [o d'].
  simpl in ok; subst o; reflexivity.
Qed.

Lemma set_open_other (w : World) (d : Door.t) :
  Door.state d <> PyState State.closing ->
  Door.__set_open w d =
  (Return tt, snd (Door.__set_state w State.open d)).
Proof.
  intros ne; apply py_eq_false in ne.
  unfold Door.__set_open, Door.bind, Door.get, Door.ret.
  rewrite ne.
  destruct (set_state_forces w State.open d eq_refl) as (_ & [r ok] & _).
  destruct (Door.__set_state w State.open d) as [o d'].
  simpl in ok; subst o; reflexivity.
Qed.

Lemma set_open_closing (w : World) (d : Door.t) :
  Door.state d = PyState State.closing ->
  Door.__set_open w d = (Raise (NameError "CLOSING_THESHOLD"), d).
Proof.
  intros st.
  unfold Door.__set_open, Door.bind at 1, Door.get.
  rewrite st; cbn -[Door.__set_state Door.overdue].
  unfold Door.bind, Door.lift; rewrite overdue_unbound; reflexivity.
Qed.

(** C9: when the lower sensor asserts on a door that is [Opening], the
    handler latches [Error] if the clock is more than two seconds past
    [opening_started] and does nothing otherwise; on a door in any other
    state it leaves the door [Closed]. *)
Theorem set_closed_spec (w : World) (d : Door.t) :
  (forall t0 : datetime,
      Door.state d = PyState State.opening ->
      Door.opening_started d = Some t0 ->
      (t0 + timedelta_seconds 2 < now w ->
       fst (Door.__set_closed w d) = Return tt
       /\ Door.state (snd (Door.__set_closed w d)) = PyState State.error)
      /\ (now w <= t0 + timedelta_seconds 2 ->
          Door.__set_closed w d = (Return tt, d)))
  /\ (Door.state d <> PyState State.opening ->
      fst (Door.__set_closed w d) = Return tt
      /\ Door.state (snd (Door.__set_closed w d)) = PyState State.closed).
Proof.
  split.
  - intros t0 st started.
    rewrite (set_closed_opening w d t0 st started).
    destruct (Z.ltb_spec (t0 + timedelta_seconds 2) (now w)) as [late|early];
      split; intros; try lia; auto.
  - intros ne; rewrite (set_closed_other w d ne); split; [reflexivity |].
    apply (set_state_forces w State.closed d eq_refl).
Qed.

Example set_closed_within_threshold :
  Door.__set_closed (mk_world (t_start + 500000) false true) door_opening
  = (Return tt, door_opening).
Proof. reflexivity. Qed.

Example set_closed_from_open :
  Door.state
    (snd (Door.__set_closed lower_after_2100ms
            (snd (Door.__init__ (mk_world t_start true false)))))
  = PyState State.closed.
Proof. reflexivity. Qed.

(** C2: on a door that is [Closing], the upper-sensor handler reads the
    name [CLOSING_THESHOLD], which the module never binds: it raises
    [NameError] whatever the elapsed time, and the door is left [Closing]
    and never latched to [Error].  (In every other state it leaves the door
    [Open].) *)
Theorem set_open_while_closing (w : World) (d : Door.t) :
  Door.state d = PyState State.closing ->
  Door.__set_open w d = (Raise (NameError "CLOSING_THESHOLD"), d)
  /\ Door.state (snd (Door.__set_open w d)) <> PyState State.error.
Proof.
  intros st; rewrite (set_open_closing w d st); split; [reflexivity |].
  simpl; rewrite st; discriminate.
Qed.

Lemma set_open_while_closing_witness :
  Door.__set_open upper_after_2100ms door_closing =
  (Raise (NameError "CLOSING_THESHOLD"), door_closing)
  /\ Door.state (snd (Door.__set_open upper_after_2100ms door_closing))
     <> PyState State.error.
Proof.
  apply (set_open_while_closing upper_after_2100ms door_closing).
  reflexivity.
Defined.

(** The sibling paths do latch [Error] on the mirrored input: the blocked
    check on the same door and observation, and the lower-sensor handler on
    the opening door. *)
Example check_blocked_latches_closing :
  Door.state (snd (Door.__check_blocked upper_after_2100ms door_closing))
  = PyState State.error.
Proof. reflexivity. Qed.

Example set_closed_latches_opening :
  Door.state (snd (Door.__set_closed lower_after_2100ms door_opening))
  = PyState State.error.
Proof. reflexivity. Qed.

(** The part of the handler that works: on a door that is not [Closing]
    it returns and leaves the door [Open]. *)
Lemma set_open_forces_open (w : World) (d : Door.t) :
  Door.state d <> PyState State.closing ->
  fst (Door.__set_open w d) = Return tt
  /\ Door.state (snd (Door.__set_open w d)) = PyState State.open.
Proof.
  intros ne; rewrite (set_open_other w d ne); split; [reflexivity |].
  apply (set_state_forces w State.open d eq_refl).
Qed.

(** ** The timestamp invariant *)

Lemma changed_timestamps (w : World) (st : pyobj) (d : Door.t) :
  timestamps_inv (changed w st d).
Proof.
  unfold timestamps_inv, is_set; simpl.
  destruct (py_eq_spec st State.opening) as [eo|no];
    destruct (py_eq_spec st State.closing) as [ec|nc];
    repeat split; intros; try congruence; tauto.
Qed.

Lemma fresh_timestamps : timestamps_inv Door.fresh.
Proof.
  unfold timestamps_inv, is_set; simpl.
  repeat split; intros; try congruence; tauto.
Qed.

(** What the blocked check can do to a door. *)
Lemma check_blocked_cases (w : World) (d : Door.t) :
  snd (Door.__check_blocked w d) = d
  \/ snd (Door.__check_blocked w d) = changed w State.error d.
Proof.
  unfold Door.__check_blocked, Door.check_blocked_with,
    Door.bind, Door.get, Door.lift, Door.ret.
  destruct (py_eq_spec (Door.state d) State.opening) as [eo|no];
    cbn -[Door.__set_state Door.overdue].
  - destruct (lower_is_pressed w); cbn -[Door.__set_state Door.overdue].
    + destruct (Door.overdue _ _ _) as [[|]| |]; auto.
      * right; rewrite set_state_change by (rewrite eo; discriminate).
        reflexivity.
      * rewrite eo; auto.
    + rewrite eo; auto.
  - destruct (py_eq_spec (Door.state d) State.closing) as [ec|nc];
      cbn -[Door.__set_state Door.overdue]; auto.
    destruct (upper_is_pressed w); cbn -[Door.__set_state Door.overdue]; auto.
    destruct (Door.overdue _ _ _) as [[|]| |]; auto.
    right; rewrite set_state_change by (rewrite ec; discriminate).
    reflexivity.
Qed.

(** What [__set_state] can do to a door. *)
Lemma set_state_cases (w : World) (st : pyobj) (d : Door.t) :
  snd (Door.__set_state w st d) = d
  \/ snd (Door.__set_state w st d) = changed w st d
  \/ snd (Door.__set_state w st d) = changed w State.error d.
Proof.
  destruct (py_eq_spec (Door.state d) st) as [same|differs].
  - destruct (is_moving st) eqn:moving.
    + rewrite (set_state_moving w st d same moving).
      destruct (check_blocked_cases w d); auto.
    + rewrite (set_state_stable w st d same moving); auto.
  - rewrite (set_state_change w st d differs); auto.
Qed.

Lemma set_state_timestamps (w : World) (st : pyobj) (d : Door.t) :
  timestamps_inv d -> timestamps_inv (snd (Door.__set_state w st d)).
Proof.
  intros inv.
  destruct (set_state_cases w st d) as [-> | [-> | ->]];
    auto using changed_timestamps.
Qed.

Lemma reachable_timestamps (d : Door.t) : reachable d -> timestamps_inv d.
Proof.
  induction 1 as [| d w st _ IH].
  - exact fresh_timestamps.
  - apply set_state_timestamps; exact IH.
Qed.

(** On a door that keeps the invariant, [__set_state] returns. *)
Lemma set_state_returns (w : World) (st : pyobj) (d : Door.t) :
  timestamps_inv d -> exists r : Z, fst (Door.__set_state w st d) = Return r.
Proof.
  intros (io & ic & _); unfold is_set in io, ic.
  destruct (py_eq_spec (Door.state d) st) as [same|differs].
  - destruct (is_moving st) eqn:moving.
    + rewrite (set_state_moving w st d same moving).
      unfold Door.__check_blocked, Door.check_blocked_with,
        Door.bind, Door.get, Door.lift, Door.ret.
      destruct (py_eq_spec (Door.state d) State.opening) as [eo|no];
        cbn -[Door.__set_state Door.overdue].
      * destruct (Door.opening_started d) as [t0|] eqn:started;
          [| exfalso; apply io in eo; congruence].
        destruct (lower_is_pressed w); cbn -[Door.__set_state Door.overdue].
        -- rewrite overdue_opening.
           destruct (_ <? now w).
           ++ rewrite set_state_change by (rewrite eo; discriminate).
              eexists; reflexivity.
           ++ rewrite eo; eexists; reflexivity.
        -- rewrite eo; eexists; reflexivity.
      * destruct (py_eq_spec (Door.state d) State.closing) as [ec|nc];
          cbn -[Door.__set_state Door.overdue];
          [| eexists; reflexivity].
        destruct (Door.closing_started d) as [t0|] eqn:started;
          [| exfalso; apply ic in ec; congruence].
        destruct (upper_is_pressed w); cbn -[Door.__set_state Door.overdue];
          [| eexists; reflexivity].
        rewrite overdue_closing.
        destruct (_ <? now w); [| eexists; reflexivity].
        rewrite set_state_change by (rewrite ec; discriminate).
        eexists; reflexivity.
    + rewrite (set_state_stable w st d same moving); eexists; reflexivity.
  - rewrite (set_state_change w st d differs); eexists; reflexivity.
Qed.

(** C6: after every call of [__set_state] on a door the program can hold,
    the call has returned and [opening_started] is set exactly when the
    state is [Opening], [closing_started] exactly when it is [Closing], and
    the two are never both set. *)
Theorem set_state_keeps_timestamps (d : Door.t) (w : World) (st : pyobj) :
  reachable d ->
  (exists r : Z, fst (Door.__set_state w st d) = Return r)
  /\ timestamps_inv (snd (Door.__set_state w st d)).
Proof.
  intros reach; apply reachable_timestamps in reach; split.
  - apply set_state_returns; exact reach.
  - apply set_state_timestamps; exact reach.
Qed.

Lemma set_state_keeps_timestamps_witness :
  (exists r : Z,
      fst (Door.__set_state lower_after_2100ms State.opening door_opening)
      = Return r)
  /\ timestamps_inv
       (snd (Door.__set_state lower_after_2100ms State.opening door_opening)).
Proof.
  apply (set_state_keeps_timestamps door_opening lower_after_2100ms
           State.opening).
  exact (reach_set_state _ _ State.opening
           (reach_set_state _ (mk_world t_start false true) State.closed
              reach_fresh)).
Defined.

(** ** Every entry point keeps the door reachable *)

Lemma bind_ret_snd {A : Type} (m : Door.M A) (d : Door.t) :
  snd (Door.bind m (fun _ => Door.ret tt) d) = snd (m d).
Proof.
  unfold Door.bind, Door.ret; destruct (m d) as [[a|e|] d']; reflexivity.
Qed.

Lemma reachable_init (w : World) : reachable (snd (Door.__init__ w)).
Proof. unfold Door.__init__; apply reach_set_state, reach_fresh. Qed.

Lemma reachable_check_blocked (w : World) (d : Door.t) :
  reachable d -> reachable (snd (Door.__check_blocked w d)).
Proof.
  intros reach.
  destruct (is_moving (Door.state d)) eqn:moving.
  - rewrite <- (set_state_moving w (Door.state d) d eq_refl moving).
    apply reach_set_state; exact reach.
  - rewrite (check_blocked_idle w d moving); exact reach.
Qed.

Lemma reachable_set_closed (w : World) (d : Door.t) :
  reachable d -> reachable (snd (Door.__set_closed w d)).
Proof.
  intros reach.
  unfold Door.__set_closed, Door.bind at 1, Door.get.
  destruct (py_eq (Door.state d) State.opening).
  - unfold Door.bind at 1, Door.lift.
    destruct (Door.overdue _ _ _) as [[|]| |]; try exact reach.
    rewrite bind_ret_snd; apply reach_set_state; exact reach.
  - rewrite bind_ret_snd; apply reach_set_state; exact reach.
Qed.

Lemma reachable_set_open (w : World) (d : Door.t) :
  reachable d -> reachable (snd (Door.__set_open w d)).
Proof.
  intros reach.
  unfold Door.__set_open, Door.bind at 1, Door.get.
  destruct (py_eq (Door.state d) State.closing).
  - unfold Door.bind at 1, Door.lift.
    destruct (Door.overdue _ _ _) as [[|]| |]; try exact reach.
    rewrite bind_ret_snd; apply reach_set_state; exact reach.
  - rewrite bind_ret_snd; apply reach_set_state; exact reach.
Qed.

Lemma reachable_set_desired (ws : list World) (desired : pyobj) (d : Door.t) :
  reachable d -> reachable (snd (Door.__set_desired ws desired d)).
Proof.
  revert d; induction ws as [| w ws IH]; intros d reach;
    cbn [Door.__set_desired]; unfold Door.bind at 1, Door.get at 1;
    (destruct (negb (py_eq (Door.state d) desired)); [| exact reach]);
    unfold Door.bind at 1, Door.lift;
    (destruct (transition_state (Door.state d) desired) as [next|e|];
     try exact reach).
  unfold Door.bind at 1.
  pose proof (reach_set_state d w next reach) as reach'.
  destruct (Door.__set_state w next d) as [[r|e|] d']; simpl in reach';
    try exact reach'.
  unfold Door.bind at 1, Door.get at 1.
  destruct (py_eq (Door.state d') State.error).
  - exact reach'.
  - apply IH; exact reach'.
Qed.

Lemma reachable_toggle (ws : list World) (d : Door.t) :
  reachable d -> reachable (snd (Door.__toggle ws d)).
Proof.
  intros reach.
  unfold Door.__toggle, Door.bind at 1, Door.get, Door.bind at 1, Door.lift.
  destruct (toggle_state (Door.state d)) as [desired|e|]; try exact reach.
  apply reachable_set_desired; exact reach.
Qed.

(** ** The motor follows the state *)

Lemma changed_motor (w : World) (st : pyobj) (d : Door.t) :
  motor_follows (changed w st d).
Proof.
  unfold motor_follows, is_moving; simpl.
  destruct (py_eq st State.opening), (py_eq st State.closing); auto.
Qed.

Lemma reachable_motor (d : Door.t) : reachable d -> motor_follows d.
Proof.
  induction 1 as [| d w st _ IH].
  - repeat split.
  - destruct (set_state_cases w st d) as [-> | [-> | ->]];
      auto using changed_motor.
Qed.

(** ** The button *)

Lemma transition_state_stopped (actual : State.t) :
  (actual = State.opening ->
   transition_state actual State.opening_stopped = Raise ValueError)
  /\ (actual = State.closing ->
      transition_state actual State.closing_stopped = Raise ValueError).
Proof. split; intros ->; reflexivity. Qed.

Lemma set_desired_rejected (ws : list World) (desired : pyobj) (d : Door.t) :
  transition_state (Door.state d) desired = Raise ValueError ->
  Door.__set_desired ws desired d = (Raise ValueError, d).
Proof.
  intros rejected.
  assert (differs : py_eq (Door.state d) desired = false).
  { destruct (py_eq_spec (Door.state d) desired) as [same|]; [| reflexivity].
    rewrite transition_state_fixed in rejected by (right; exact same).
    discriminate rejected. }
  destruct ws; cbn [Door.__set_desired];
    unfold Door.bind, Door.get, Door.lift;
    rewrite differs, rejected; reflexivity.
Qed.

(** C1: a button press on a door that is [Opening] asks for
    [OpeningStopped], which the transition step rejects: the press raises
    [ValueError] before anything is applied, the door is left [Opening] and
    its motor keeps running.  The same holds for [Closing] and
    [ClosingStopped]. *)
Theorem toggle_while_moving (ws : list World) (d : Door.t) :
  reachable d ->
  Door.state d = PyState State.opening \/ Door.state d = PyState State.closing ->
  Door.__toggle ws d = (Raise ValueError, d)
  /\ Door.state (snd (Door.__toggle ws d)) = Door.state d
  /\ motor_runs (snd (Door.__toggle ws d)).
Proof.
  intros reach moving.
  assert (raised : Door.__toggle ws d = (Raise ValueError, d)).
  { unfold Door.__toggle, Door.bind at 1, Door.get, Door.bind at 1, Door.lift.
    destruct moving as [st | st]; rewrite st;
      cbn [toggle_state py_eq State.eqb State.value Z.eqb orb Pos.eqb];
      apply set_desired_rejected; rewrite st; reflexivity. }
  rewrite raised; repeat split.
  - destruct (reachable_motor d reach) as (run & _).
    simpl; rewrite run; unfold is_moving.
    destruct moving as [-> | ->]; reflexivity.
  - destruct (reachable_motor d reach) as (_ & pin & _).
    simpl; rewrite pin; unfold is_moving.
    destruct moving as [-> | ->]; reflexivity.
Qed.

Lemma toggle_while_moving_witness :
  Door.__toggle [lower_after_2100ms] door_opening
  = (Raise ValueError, door_opening)
  /\ Door.state (snd (Door.__toggle [lower_after_2100ms] door_opening))
     = Door.state door_opening
  /\ motor_runs (snd (Door.__toggle [lower_after_2100ms] door_opening)).
Proof.
  apply (toggle_while_moving [lower_after_2100ms] door_opening).
  - exact (reach_set_state _ _ State.opening
             (reach_set_state _ (mk_world t_start false true) State.closed
                reach_fresh)).
  - left; reflexivity.
Defined.


(** * Further properties of the controller *)

(** ** The motor driver *)

(** [Motor.set_state] forgets what the motor did before: the two flags and
    the two pins depend on the state alone.  The on/off pin is high exactly
    for [opening] and [closing], the direction pin exactly for [opening],
    so the direction pin is never high on a motor that is off. *)
Theorem motor_set_state_outputs (m m' : Motor.t) (state : pyobj) :
  Motor.set_state m state = Motor.set_state m' state
  /\ (Motor.onoff (Motor.set_state m state) = true <->
      state = PyState State.opening \/ state = PyState State.closing)
  /\ (Motor.dir (Motor.set_state m state) = true <->
      state = PyState State.opening)
  /\ Motor.running (Motor.set_state m state)
     = Motor.onoff (Motor.set_state m state)
  /\ (Motor.dir (Motor.set_state m state) = true ->
      Motor.onoff (Motor.set_state m state) = true).
Proof.
  unfold Motor.set_state, Motor.__update; simpl.
  destruct (py_eq_spec state State.opening) as [eo|no];
    destruct (py_eq_spec state State.closing) as [ec|nc]; simpl;
    repeat split; intros; try tauto; try congruence; auto;
    try (destruct H; congruence).
Qed.

(** On every door the program can hold, the motor pins follow the door's
    state: on/off is high exactly when the door is [Opening] or [Closing],
    the direction pin exactly when it is [Opening]. *)
Theorem motor_tracks_state (d : Door.t) :
  reachable d ->
  (Motor.onoff (Door.motor d) = true <->
   Door.state d = PyState State.opening \/ Door.state d = PyState State.closing)
  /\ (Motor.dir (Door.motor d) = true <->
      Door.state d = PyState State.opening)
  /\ Motor.running (Door.motor d) = Motor.onoff (Door.motor d).
Proof.
  intros reach; destruct (reachable_motor d reach) as (run & pin & _ & dir).
  rewrite run, pin, dir; unfold is_moving.
  destruct (py_eq_spec (Door.state d) State.opening) as [eo|no];
    destruct (py_eq_spec (Door.state d) State.closing) as [ec|nc]; simpl;
    repeat split; intros; try tauto; try congruence; auto;
    try (destruct H; congruence).
Qed.

Lemma motor_tracks_state_witness :
  (Motor.onoff (Door.motor door_closing) = true <->
   Door.state door_closing = PyState State.opening
   \/ Door.state door_closing = PyState State.closing)
  /\ (Motor.dir (Door.motor door_closing) = true <->
      Door.state door_closing = PyState State.opening)
  /\ Motor.running (Door.motor door_closing)
     = Motor.onoff (Door.motor door_closing).
Proof.
  apply (motor_tracks_state door_closing).
  exact (reach_set_state _ _ State.closing
           (reach_set_state _ (mk_world t_start true false) State.open
              reach_fresh)).
Defined.

(** ** The constructor *)

(** [Door.__init__] always returns.  The door it builds is [Open] when the
    upper switch is pressed (also when both are), [Closed] when only the
    lower one is, [Unknown] when neither is; its motor is off and no motion
    timestamp is set. *)
Theorem init_state (w : World) :
  fst (Door.__init__ w) = Return 0
  /\ Door.state (snd (Door.__init__ w))
     = (if upper_is_pressed w then PyState State.open
        else if lower_is_pressed w then PyState State.closed
        else PyState State.unknown)
  /\ at_rest (snd (Door.__init__ w))
  /\ Door.led (snd (Door.__init__ w)) <> None.
Proof.
  unfold Door.__init__, at_rest.
  destruct (upper_is_pressed w); [| destruct (lower_is_pressed w)];
    (rewrite set_state_change by discriminate);
    simpl; repeat split; discriminate.
Qed.

(** ** The indicator *)

Lemma blink_has_pattern (led led' : option pattern) (s : State.t) :
  has_pattern s = true -> blink led s = blink led' s /\ blink led s <> None.
Proof.
  destruct s; cbv; intros pat; try discriminate pat;
    (split; [reflexivity | discriminate]).
Qed.

Lemma blink_no_pattern (led : option pattern) (state : pyobj) :
  (forall s : State.t, has_pattern s = true -> state <> PyState s) ->
  blink led state = led.
Proof.
  intros none; destruct state as [|s|n]; try reflexivity.
  destruct s; try reflexivity;
    match goal with
    | |- blink _ (PyState ?x) = _ =>
        exact (False_ind _ (none x eq_refl eq_refl))
    end.
Qed.

(** [blink] leaves the LED as it was for [opening_stopped],
    [closing_stopped] and any object that is not a member of [State]; for
    the six other members it sets a pattern that does not depend on the
    previous one, and the pattern of [error] is shared with no other
    state. *)
Theorem blink_patterns (led led' : option pattern) :
  (forall state : pyobj,
      (forall s : State.t, has_pattern s = true -> state <> PyState s) ->
      blink led state = led)
  /\ (forall s : State.t,
         has_pattern s = true ->
         blink led s = blink led' s /\ blink led s <> None)
  /\ (forall s : State.t,
         has_pattern s = true ->
         blink led s = blink led' State.error -> s = State.error).
Proof.
  split; [| split].
  - intros state; apply blink_no_pattern.
  - intros s; apply blink_has_pattern.
  - intros s; destruct s; cbv; intros; congruence.
Qed.

Lemma reachable_led (d : Door.t) :
  reachable d ->
  forall (s : State.t) (led : option pattern),
    Door.state d = PyState s -> has_pattern s = true ->
    Door.led d = blink led s.
Proof.
  induction 1 as [| d w st _ IH]; intros s led0 Hs pat.
  - discriminate Hs.
  - destruct (set_state_cases w st d) as [e | [e | e]];
      rewrite e in Hs |- *; simpl in Hs |- *.
    + apply IH; assumption.
    + rewrite Hs; apply (blink_has_pattern _ _ s pat).
    + injection Hs as <-; reflexivity.
Qed.

(** On every door the program can hold whose state is one of the six
    members with a pattern, the LED blinks the pattern of that state. *)
Theorem led_tracks_state (d : Door.t) (s : State.t) :
  reachable d ->
  Door.state d = PyState s ->
  has_pattern s = true ->
  Door.led d = blink None s /\ Door.led d <> None.
Proof.
  intros reach Hs pat.
  rewrite (reachable_led d reach s None Hs pat).
  split; [reflexivity | apply (blink_has_pattern None None s pat)].
Qed.

Lemma led_tracks_state_witness :
  Door.led door_opening = blink None State.opening
  /\ Door.led door_opening <> None.
Proof.
  apply (led_tracks_state door_opening State.opening).
  - exact (reach_set_state _ _ State.opening
             (reach_set_state _ (mk_world t_start false true) State.closed
                reach_fresh)).
  - reflexivity.
  - reflexivity.
Defined.

(** ** The busy-wait loop *)

(** One turn of the loop of [__set_desired], once the target differs and
    the transition step has returned. *)
Lemma set_desired_turn (w : World) (ws : list World) (desired next : pyobj)
    (d : Door.t) :
  Door.state d <> desired ->
  transition_state (Door.state d) desired = Return next ->
  Door.__set_desired (w :: ws) desired d =
  match Door.__set_state w next d with
  | (Return _, d') =>
      if py_eq (Door.state d') State.error then (Return tt, d')
      else Door.__set_desired ws desired d'
  | (Raise e, d') => (Raise e, d')
  | (OutOfFuel, d') => (OutOfFuel, d')
  end.
Proof.
  intros differs step; apply py_eq_false in differs.
  cbn [Door.__set_desired].
  unfold Door.bind at 1, Door.get at 1; rewrite differs; cbn [negb].
  unfold Door.bind at 1, Door.lift; rewrite step.
  unfold Door.bind at 1.
  destruct (Door.__set_state w next d) as [[r|e|] d']; try reflexivity.
  unfold Door.bind at 1, Door.get at 1, Door.ret.
  destruct (py_eq (Door.state d') State.error); reflexivity.
Qed.

(** The loop does not start when the door is already there. *)
Lemma set_desired_there (ws : list World) (d : Door.t) :
  Door.__set_desired ws (Door.state d) d = (Return tt, d).
Proof.
  destruct ws; cbn [Door.__set_desired];
    unfold Door.bind, Door.get; rewrite py_eq_refl; reflexivity.
Qed.

(** With no observation left the loop stops short or raises. *)
Lemma set_desired_nil (desired : pyobj) (d : Door.t) :
  Door.state d <> desired ->
  fst (Door.__set_desired [] desired d) <> Return tt.
Proof.
  intros differs; apply py_eq_false in differs.
  cbn [Door.__set_desired]; unfold Door.bind, Door.get, Door.lift.
  rewrite differs; cbn [negb].
  destruct (transition_state (Door.state d) desired); discriminate.
Qed.

(** The state [__set_state] leaves: the one asked for, or [Error]. *)
Lemma set_state_state (w : World) (st : pyobj) (d : Door.t) :
  Door.state (snd (Door.__set_state w st d)) = st
  \/ Door.state (snd (Door.__set_state w st d)) = PyState State.error.
Proof.
  destruct (py_eq_spec (Door.state d) st) as [same|differs].
  - destruct (is_moving st) eqn:moving.
    + rewrite (set_state_moving w st d same moving).
      destruct (check_blocked_cases w d) as [-> | ->]; auto.
    + rewrite (set_state_stable w st d same moving); auto.
  - rewrite (set_state_change w st d differs); auto.
Qed.

(** What the transition step can answer when the target differs. *)
Lemma transition_state_differs (actual desired next : pyobj) :
  actual <> desired ->
  transition_state actual desired = Return next ->
  (actual = PyState State.error /\ next = PyState State.error)
  \/ (next <> desired /\ is_moving next = true).
Proof.
  intros differs; unfold transition_state.
  destruct (py_eq_spec actual State.error) as [->|ne]; simpl.
  { intros [= <-]; left; split; reflexivity. }
  destruct (py_eq_spec actual desired) as [same|_]; [contradiction |]; simpl.
  destruct (py_eq_spec desired State.open) as [->|no].
  { intros [= <-]; right; split; [discriminate | reflexivity]. }
  destruct (py_eq_spec desired State.closed) as [->|nc].
  { intros [= <-]; right; split; [discriminate | reflexivity]. }
  discriminate.
Qed.

Lemma set_desired_ends_in_error (ws : list World) (desired : pyobj)
    (d d' : Door.t) :
  Door.state d <> desired ->
  Door.__set_desired ws desired d = (Return tt, d') ->
  Door.state d' = PyState State.error.
Proof.
  revert d; induction ws as [| w ws IH]; intros d differs run.
  - exfalso; apply (set_desired_nil desired d differs).
    rewrite run; reflexivity.
  - destruct (transition_state (Door.state d) desired) as [next|e|] eqn:step.
    + rewrite (set_desired_turn w ws desired next d differs step) in run.
      pose proof (set_state_state w next d) as after.
      destruct (Door.__set_state w next d) as [[r|e|] d1]; simpl in after;
        try discriminate run.
      destruct (py_eq_spec (Door.state d1) State.error) as [err|ok].
      * injection run as <-; exact err.
      * apply (IH d1); [| exact run].
        destruct after as [after|after]; [| contradiction].
        destruct (transition_state_differs _ _ _ differs step)
          as [[_ ->] | [ne _]]; congruence.
    + exfalso; apply py_eq_false in differs.
      cbn [Door.__set_desired] in run.
      unfold Door.bind, Door.get, Door.lift in run.
      rewrite differs, step in run; discriminate run.
    + exfalso; apply py_eq_false in differs.
      cbn [Door.__set_desired] in run.
      unfold Door.bind, Door.get, Door.lift in run.
      rewrite differs, step in run; discriminate run.
Qed.

(** When [__set_desired] returns, either the door was already in the
    desired state and is untouched, or the door is in [Error]: run on its
    own, the loop never brings a door to the state it was asked for. *)
Theorem set_desired_returns_there_or_error (ws : list World)
    (desired : pyobj) (d d' : Door.t) :
  Door.__set_desired ws desired d = (Return tt, d') ->
  (Door.state d = desired /\ d' = d)
  \/ (Door.state d <> desired /\ Door.state d' = PyState State.error).
Proof.
  intros run.
  destruct (py_eq_spec (Door.state d) desired) as [same|differs].
  - left; split; [exact same |].
    subst desired; rewrite set_desired_there in run; congruence.
  - right; split; [exact differs |].
    exact (set_desired_ends_in_error ws desired d d' differs run).
Qed.

Lemma set_desired_returns_there_or_error_witness :
  (Door.state door_opening = PyState State.open
   /\ snd (Door.__set_desired [lower_after_2100ms] State.open door_opening)
      = door_opening)
  \/ (Door.state door_opening <> PyState State.open
      /\ Door.state
           (snd (Door.__set_desired [lower_after_2100ms] State.open
                   door_opening))
         = PyState State.error).
Proof.
  apply (set_desired_returns_there_or_error [lower_after_2100ms] State.open).
  reflexivity.
Defined.

(** The transition step accepts the two targets of the schedule. *)
Lemma transition_state_schedule (actual desired : pyobj) :
  desired = PyState State.open \/ desired = PyState State.closed ->
  exists next : pyobj, transition_state actual desired = Return next.
Proof.
  unfold transition_state; intros [-> | ->];
    destruct (py_eq actual State.error || _); try (eexists; reflexivity).
Qed.

Lemma set_desired_no_raise (ws : list World) (desired : pyobj) (d : Door.t) :
  desired = PyState State.open \/ desired = PyState State.closed ->
  timestamps_inv d ->
  forall e : exn, fst (Door.__set_desired ws desired d) <> Raise e.
Proof.
  intros target; revert d; induction ws as [| w ws IH]; intros d inv e.
  - cbn [Door.__set_desired]; unfold Door.bind, Door.get, Door.lift.
    destruct (negb (py_eq (Door.state d) desired)); [| discriminate].
    destruct (transition_state_schedule (Door.state d) desired target)
      as [next ->]; discriminate.
  - destruct (py_eq_spec (Door.state d) desired) as [same|differs].
    + subst desired; rewrite set_desired_there; discriminate.
    + destruct (transition_state_schedule (Door.state d) desired target)
        as [next step].
      rewrite (set_desired_turn w ws desired next d differs step).
      destruct (set_state_returns w next d inv) as [r ok].
      pose proof (set_state_timestamps w next d inv) as inv'.
      destruct (Door.__set_state w next d) as [o d1]; simpl in ok, inv'.
      subst o.
      destruct (py_eq (Door.state d1) State.error); [discriminate |].
      apply IH; exact inv'.
Qed.

(** Driven toward [Open] or [Closed], the loop never raises on a door the
    program can hold; so one turn of [run], whose target comes from
    [desired_state], never raises either. *)
Theorem run_never_raises (d : Door.t) (ws : list World)
    (sunrise sunset clock : time) :
  reachable d ->
  (forall e : exn, fst (Door.__set_desired ws State.open d) <> Raise e)
  /\ (forall e : exn, fst (Door.__set_desired ws State.closed d) <> Raise e)
  /\ (forall e : exn, fst (run_once sunrise sunset clock ws d) <> Raise e).
Proof.
  intros reach; apply reachable_timestamps in reach.
  repeat split; intros e.
  - apply set_desired_no_raise; auto.
  - apply set_desired_no_raise; auto.
  - unfold run_once; apply set_desired_no_raise; [| exact reach].
    unfold desired_state; destruct (time_gt _ _ && time_lt _ _); auto.
Qed.

Lemma run_never_raises_witness :
  (forall e : exn,
      fst (Door.__set_desired [lower_after_2100ms] State.open door_closing)
      <> Raise e)
  /\ (forall e : exn,
         fst (Door.__set_desired [lower_after_2100ms] State.closed
                door_closing)
         <> Raise e)
  /\ (forall e : exn,
         fst (run_once (mk_time 5 30 0 0) (mk_time 21 0 0 0)
                (mk_time 12 0 0 0) [lower_after_2100ms] door_closing)
         <> Raise e).
Proof.
  apply (run_never_raises door_closing).
  exact (reach_set_state _ _ State.closing
           (reach_set_state _ (mk_world t_start true false) State.open
              reach_fresh)).
Defined.

(** ** Error is a sink for the button and the schedule *)

Lemma set_desired_from_error (w : World) (ws : list World) (desired : pyobj)
    (d : Door.t) :
  Door.state d = PyState State.error ->
  Door.__set_desired (w :: ws) desired d = (Return tt, d).
Proof.
  intros err.
  destruct (py_eq_spec (Door.state d) desired) as [same|differs].
  - subst desired; apply set_desired_there.
  - rewrite (set_desired_turn w ws desired State.error d differs)
      by (rewrite err; reflexivity).
    rewrite (set_state_stable w State.error d err eq_refl).
    rewrite err; reflexivity.
Qed.

(** On a door in [Error], neither the loop (whatever its target) nor a
    button press changes anything: both return with the door untouched.
    The press asks for [Open], and the transition step answers [Error]. *)
Theorem error_is_a_sink (w : World) (ws : list World) (desired : pyobj)
    (d : Door.t) :
  Door.state d = PyState State.error ->
  Door.__set_desired (w :: ws) desired d = (Return tt, d)
  /\ Door.__toggle (w :: ws) d = (Return tt, d).
Proof.
  intros err; split.
  - apply set_desired_from_error; exact err.
  - unfold Door.__toggle, Door.bind at 1, Door.get, Door.bind at 1, Door.lift.
    rewrite err; cbn [toggle_state py_eq State.eqb State.value Z.eqb orb
                        Pos.eqb].
    apply set_desired_from_error; exact err.
Qed.

Lemma error_is_a_sink_witness :
  Door.__set_desired [lower_after_2100ms] State.closed
    (changed lower_after_2100ms State.error door_opening)
  = (Return tt, changed lower_after_2100ms State.error door_opening)
  /\ Door.__toggle [lower_after_2100ms]
       (changed lower_after_2100ms State.error door_opening)
     = (Return tt, changed lower_after_2100ms State.error door_opening).
Proof.
  apply (error_is_a_sink lower_after_2100ms [] State.closed
           (changed lower_after_2100ms State.error door_opening)).
  reflexivity.
Defined.

(** ** The loop on a moving door *)

Lemma check_blocked_going_up (w : World) (d : Door.t) (t0 : datetime) :
  Door.state d = PyState State.opening ->
  Door.opening_started d = Some t0 ->
  Door.__check_blocked w d =
  (Return 0, if blocked_opening t0 w then changed w State.error d else d).
Proof.
  intros st started; unfold blocked_opening.
  destruct (lower_is_pressed w) eqn:low.
  - apply check_blocked_opening; assumption.
  - unfold Door.__check_blocked, Door.check_blocked_with,
      Door.bind, Door.get, Door.lift, Door.ret.
    rewrite st, low; cbn -[Door.__set_state Door.overdue].
    rewrite st; reflexivity.
Qed.

Lemma check_blocked_going_down (w : World) (d : Door.t) (t0 : datetime) :
  Door.state d = PyState State.closing ->
  Door.closing_started d = Some t0 ->
  Door.__check_blocked w d =
  (Return 0, if blocked_closing t0 w then changed w State.error d else d).
Proof.
  intros st started; unfold blocked_closing.
  destruct (upper_is_pressed w) eqn:up.
  - apply check_blocked_closing; assumption.
  - unfold Door.__check_blocked, Door.check_blocked_with,
      Door.bind, Door.get, Door.lift, Door.ret.
    rewrite st; cbn -[Door.__set_state Door.overdue].
    rewrite st, up; reflexivity.
Qed.

(** One turn of the loop on a door that is already moving the right way. *)
Lemma set_desired_turn_up (w : World) (ws : list World) (d : Door.t)
    (t0 : datetime) :
  Door.state d = PyState State.opening ->
  Door.opening_started d = Some t0 ->
  Door.__set_desired (w :: ws) State.open d =
  if blocked_opening t0 w then (Return tt, changed w State.error d)
  else Door.__set_desired ws State.open d.
Proof.
  intros st started.
  rewrite (set_desired_turn w ws State.open State.opening d)
    by (rewrite st; (discriminate || reflexivity)).
  rewrite (set_state_moving w State.opening d st eq_refl).
  rewrite (check_blocked_going_up w d t0 st started).
  destruct (blocked_opening t0 w); [reflexivity |].
  rewrite st; reflexivity.
Qed.

Lemma set_desired_turn_down (w : World) (ws : list World) (d : Door.t)
    (t0 : datetime) :
  Door.state d = PyState State.closing ->
  Door.closing_started d = Some t0 ->
  Door.__set_desired (w :: ws) State.closed d =
  if blocked_closing t0 w then (Return tt, changed w State.error d)
  else Door.__set_desired ws State.closed d.
Proof.
  intros st started.
  rewrite (set_desired_turn w ws State.closed State.closing d)
    by (rewrite st; (discriminate || reflexivity)).
  rewrite (set_state_moving w State.closing d st eq_refl).
  rewrite (check_blocked_going_down w d t0 st started).
  destruct (blocked_closing t0 w); [reflexivity |].
  rewrite st; reflexivity.
Qed.

Lemma loop_up_spins (d : Door.t) (t0 : datetime) (ws : list World) :
  Door.state d = PyState State.opening ->
  Door.opening_started d = Some t0 ->
  forallb (fun w => negb (blocked_opening t0 w)) ws = true ->
  Door.__set_desired ws State.open d = (OutOfFuel, d).
Proof.
  intros st started; induction ws as [| w ws IH]; intros free.
  - cbn [Door.__set_desired]; unfold Door.bind, Door.get, Door.lift.
    rewrite st; reflexivity.
  - simpl in free; apply andb_prop in free as [clear free].
    rewrite (set_desired_turn_up w ws d t0 st started).
    apply negb_true_iff in clear; rewrite clear; apply IH; exact free.
Qed.

Lemma loop_up_latches (d : Door.t) (t0 : datetime)
    (pre post : list World) (w : World) :
  Door.state d = PyState State.opening ->
  Door.opening_started d = Some t0 ->
  forallb (fun w => negb (blocked_opening t0 w)) pre = true ->
  blocked_opening t0 w = true ->
  Door.__set_desired (pre ++ w :: post) State.open d
  = (Return tt, changed w State.error d).
Proof.
  intros st started; induction pre as [| v pre IH]; intros free hit.
  - cbn [app]; rewrite (set_desired_turn_up w post d t0 st started), hit.
    reflexivity.
  - simpl in free; apply andb_prop in free as [clear free].
    cbn [app]; rewrite (set_desired_turn_up v _ d t0 st started).
    apply negb_true_iff in clear; rewrite clear.
    apply IH; assumption.
Qed.

(** The loop toward [Open] on a door that has been [Opening] since [t0]:
    as long as no observation shows the lower switch asserted after the
    threshold, the loop neither returns nor touches the door (in particular
    [opening_started] is not refreshed and the motor stays on), however many
    observations it is given; the first observation that does show it ends
    the loop with the door latched in [Error]. *)
Theorem opening_loop (d : Door.t) (t0 : datetime) :
  Door.state d = PyState State.opening ->
  Door.opening_started d = Some t0 ->
  (forall ws : list World,
      forallb (fun w => negb (blocked_opening t0 w)) ws = true ->
      Door.__set_desired ws State.open d = (OutOfFuel, d))
  /\ (forall (pre post : list World) (w : World),
         forallb (fun w => negb (blocked_opening t0 w)) pre = true ->
         blocked_opening t0 w = true ->
         Door.__set_desired (pre ++ w :: post) State.open d
         = (Return tt, changed w State.error d)).
Proof.
  intros st started; split.
  - intros ws; apply loop_up_spins; assumption.
  - intros pre post w; apply loop_up_latches; assumption.
Qed.

Lemma opening_loop_witness :
  (forall ws : list World,
      forallb (fun w => negb (blocked_opening t_start w)) ws = true ->
      Door.__set_desired ws State.open door_opening
      = (OutOfFuel, door_opening))
  /\ (forall (pre post : list World) (w : World),
         forallb (fun w => negb (blocked_opening t_start w)) pre = true ->
         blocked_opening t_start w = true ->
         Door.__set_desired (pre ++ w :: post) State.open door_opening
         = (Return tt, changed w State.error door_opening)).
Proof.
  apply (opening_loop door_opening t_start); reflexivity.
Defined.

Lemma loop_down_spins (d : Door.t) (t0 : datetime) (ws : list World) :
  Door.state d = PyState State.closing ->
  Door.closing_started d = Some t0 ->
  forallb (fun w => negb (blocked_closing t0 w)) ws = true ->
  Door.__set_desired ws State.closed d = (OutOfFuel, d).
Proof.
  intros st started; induction ws as [| w ws IH]; intros free.
  - cbn [Door.__set_desired]; unfold Door.bind, Door.get, Door.lift.
    rewrite st; reflexivity.
  - simpl in free; apply andb_prop in free as [clear free].
    rewrite (set_desired_turn_down w ws d t0 st started).
    apply negb_true_iff in clear; rewrite clear; apply IH; exact free.
Qed.

Lemma loop_down_latches (d : Door.t) (t0 : datetime)
    (pre post : list World) (w : World) :
  Door.state d = PyState State.closing ->
  Door.closing_started d = Some t0 ->
  forallb (fun w => negb (blocked_closing t0 w)) pre = true ->
  blocked_closing t0 w = true ->
  Door.__set_desired (pre ++ w :: post) State.closed d
  = (Return tt, changed w State.error d).
Proof.
  intros st started; induction pre as [| v pre IH]; intros free hit.
  - cbn [app]; rewrite (set_desired_turn_down w post d t0 st started), hit.
    reflexivity.
  - simpl in free; apply andb_prop in free as [clear free].
    cbn [app]; rewrite (set_desired_turn_down v _ d t0 st started).
    apply negb_true_iff in clear; rewrite clear.
    apply IH; assumption.
Qed.

(** The loop toward [Closed] on a door that has been [Closing] since
    [t0] behaves the same way against the upper switch. *)
Theorem closing_loop (d : Door.t) (t0 : datetime) :
  Door.state d = PyState State.closing ->
  Door.closing_started d = Some t0 ->
  (forall ws : list World,
      forallb (fun w => negb (blocked_closing t0 w)) ws = true ->
      Door.__set_desired ws State.closed d = (OutOfFuel, d))
  /\ (forall (pre post : list World) (w : World),
         forallb (fun w => negb (blocked_closing t0 w)) pre = true ->
         blocked_closing t0 w = true ->
         Door.__set_desired (pre ++ w :: post) State.closed d
         = (Return tt, changed w State.error d)).
Proof.
  intros st started; split.
  - intros ws; apply loop_down_spins; assumption.
  - intros pre post w; apply loop_down_latches; assumption.
Qed.

Lemma closing_loop_witness :
  (forall ws : list World,
      forallb (fun w => negb (blocked_closing t_start w)) ws = true ->
      Door.__set_desired ws State.closed door_closing
      = (OutOfFuel, door_closing))
  /\ (forall (pre post : list World) (w : World),
         forallb (fun w => negb (blocked_closing t_start w)) pre = true ->
         blocked_closing t_start w = true ->
         Door.__set_desired (pre ++ w :: post) State.closed door_closing
         = (Return tt, changed w State.error door_closing)).
Proof.
  apply (closing_loop door_closing t_start); reflexivity.
Defined.

(** ** Starting a motion *)

Lemma set_desired_first_turn (w : World) (ws : list World)
    (desired next : pyobj) (d : Door.t) :
  Door.state d <> desired ->
  Door.state d <> next ->
  next <> PyState State.error ->
  transition_state (Door.state d) desired = Return next ->
  Door.__set_desired (w :: ws) desired d
  = Door.__set_desired ws desired (changed w next d).
Proof.
  intros differs fresh ok step.
  rewrite (set_desired_turn w ws desired next d differs step).
  rewrite (set_state_change w next d fresh).
  rewrite changed_state; apply py_eq_false in ok; rewrite ok; reflexivity.
Qed.

(** Asking a door that is neither [Open], [Opening] nor [Error] to open:
    the first turn of the loop switches the motor on upward and stamps
    [opening_started] with the clock of that turn; after that the loop keeps
    the door as it is until the first observation that shows the lower
    switch still asserted more than two seconds after that stamp, where it
    returns with the door in [Error]. *)
Theorem open_request_starts_motor (d : Door.t) (w : World) :
  Door.state d <> PyState State.open ->
  Door.state d <> PyState State.opening ->
  Door.state d <> PyState State.error ->
  (Door.state (changed w State.opening d) = PyState State.opening
   /\ Door.opening_started (changed w State.opening d) = Some (now w)
   /\ Door.closing_started (changed w State.opening d) = None
   /\ Motor.onoff (Door.motor (changed w State.opening d)) = true
   /\ Motor.dir (Door.motor (changed w State.opening d)) = true)
  /\ (forall ws : list World,
         forallb (fun v => negb (blocked_opening (now w) v)) ws = true ->
         Door.__set_desired (w :: ws) State.open d
         = (OutOfFuel, changed w State.opening d))
  /\ (forall (pre post : list World) (v : World),
         forallb (fun v => negb (blocked_opening (now w) v)) pre = true ->
         blocked_opening (now w) v = true ->
         Door.__set_desired (w :: pre ++ v :: post) State.open d
         = (Return tt, changed v State.error (changed w State.opening d))).
Proof.
  intros no nog ne.
  assert (first : forall ws,
             Door.__set_desired (w :: ws) State.open d
             = Door.__set_desired ws State.open (changed w State.opening d)).
  { intros ws; apply set_desired_first_turn; try assumption.
    - discriminate.
    - apply transition_state_open; assumption. }
  split; [repeat split | split].
  - intros ws free; rewrite first.
    apply (loop_up_spins _ (now w)); [reflexivity | reflexivity | exact free].
  - intros pre post v free hit; rewrite first.
    apply (loop_up_latches _ (now w)); try assumption; reflexivity.
Qed.

Lemma open_request_starts_motor_witness :
  (Door.state (changed lower_at_start State.opening door_closed)
   = PyState State.opening
   /\ Door.opening_started (changed lower_at_start State.opening door_closed)
      = Some (now lower_at_start)
   /\ Door.closing_started (changed lower_at_start State.opening door_closed)
      = None
   /\ Motor.onoff
        (Door.motor (changed lower_at_start State.opening door_closed))
      = true
   /\ Motor.dir
        (Door.motor (changed lower_at_start State.opening door_closed))
      = true)
  /\ (forall ws : list World,
         forallb (fun v => negb (blocked_opening (now lower_at_start) v)) ws
         = true ->
         Door.__set_desired (lower_at_start :: ws) State.open door_closed
         = (OutOfFuel, changed lower_at_start State.opening door_closed))
  /\ (forall (pre post : list World) (v : World),
         forallb (fun v => negb (blocked_opening (now lower_at_start) v)) pre
         = true ->
         blocked_opening (now lower_at_start) v = true ->
         Door.__set_desired (lower_at_start :: pre ++ v :: post) State.open
           door_closed
         = (Return tt,
            changed v State.error
              (changed lower_at_start State.opening door_closed))).
Proof.
  apply (open_request_starts_motor door_closed lower_at_start); discriminate.
Defined.

(** The mirror image for a door that is neither [Closed], [Closing] nor
    [Error] and is asked to close: motor on downward (direction pin low),
    [closing_started] stamped once, [Error] at the first observation with
    the upper switch asserted more than two seconds later. *)
Theorem close_request_starts_motor (d : Door.t) (w : World) :
  Door.state d <> PyState State.closed ->
  Door.state d <> PyState State.closing ->
  Door.state d <> PyState State.error ->
  (Door.state (changed w State.closing d) = PyState State.closing
   /\ Door.closing_started (changed w State.closing d) = Some (now w)
   /\ Door.opening_started (changed w State.closing d) = None
   /\ Motor.onoff (Door.motor (changed w State.closing d)) = true
   /\ Motor.dir (Door.motor (changed w State.closing d)) = false)
  /\ (forall ws : list World,
         forallb (fun v => negb (blocked_closing (now w) v)) ws = true ->
         Door.__set_desired (w :: ws) State.closed d
         = (OutOfFuel, changed w State.closing d))
  /\ (forall (pre post : list World) (v : World),
         forallb (fun v => negb (blocked_closing (now w) v)) pre = true ->
         blocked_closing (now w) v = true ->
         Door.__set_desired (w :: pre ++ v :: post) State.closed d
         = (Return tt, changed v State.error (changed w State.closing d))).
Proof.
  intros nc nog ne.
  assert (first : forall ws,
             Door.__set_desired (w :: ws) State.closed d
             = Door.__set_desired ws State.closed
                 (changed w State.closing d)).
  { intros ws; apply set_desired_first_turn; try assumption.
    - discriminate.
    - apply transition_state_closed; assumption. }
  split; [repeat split | split].
  - intros ws free; rewrite first.
    apply (loop_down_spins _ (now w)); [reflexivity | reflexivity | exact free].
  - intros pre post v free hit; rewrite first.
    apply (loop_down_latches _ (now w)); try assumption; reflexivity.
Qed.

Lemma close_request_starts_motor_witness :
  (Door.state (changed upper_at_start State.closing door_open)
   = PyState State.closing
   /\ Door.closing_started (changed upper_at_start State.closing door_open)
      = Some (now upper_at_start)
   /\ Door.opening_started (changed upper_at_start State.closing door_open)
      = None
   /\ Motor.onoff
        (Door.motor (changed upper_at_start State.closing door_open))
      = true
   /\ Motor.dir
        (Door.motor (changed upper_at_start State.closing door_open))
      = false)
  /\ (forall ws : list World,
         forallb (fun v => negb (blocked_closing (now upper_at_start) v)) ws
         = true ->
         Door.__set_desired (upper_at_start :: ws) State.closed door_open
         = (OutOfFuel, changed upper_at_start State.closing door_open))
  /\ (forall (pre post : list World) (v : World),
         forallb (fun v => negb (blocked_closing (now upper_at_start) v)) pre
         = true ->
         blocked_closing (now upper_at_start) v = true ->
         Door.__set_desired (upper_at_start :: pre ++ v :: post) State.closed
           door_open
         = (Return tt,
            changed v State.error
              (changed upper_at_start State.closing door_open))).
Proof.
  apply (close_request_starts_motor door_open upper_at_start); discriminate.
Defined.

(** ** The limit switches stop the motor *)

Lemma reachable_at_rest (d : Door.t) :
  reachable d -> is_moving (Door.state d) = false -> at_rest d.
Proof.
  intros reach still.
  destruct (reachable_motor d reach) as (run & pin & _ & dir).
  destruct (reachable_timestamps d reach) as (io & ic & _).
  unfold is_set in io, ic; unfold is_moving in still.
  apply orb_false_elim in still as [no nc].
  unfold at_rest; rewrite run, pin, dir; unfold is_moving; rewrite no, nc.
  apply py_eq_false in no, nc.
  repeat split.
  - destruct (Door.opening_started d); [| reflexivity].
    exfalso; apply no, io; discriminate.
  - destruct (Door.closing_started d); [| reflexivity].
    exfalso; apply nc, ic; discriminate.
Qed.

(** The upper-switch handler on a door that is not [Closing] (it may be
    [Opening], stopped, [Unknown] or in [Error]) returns with the door
    [Open], the motor off and both timestamps cleared; the lower-switch
    handler on a door that is not [Opening] does the same toward [Closed].
    So a limit switch, unlike the button, takes a door out of [Error]. *)
Theorem limit_switch_stops_motor (w : World) (d : Door.t) :
  reachable d ->
  (Door.state d <> PyState State.closing ->
   fst (Door.__set_open w d) = Return tt
   /\ Door.state (snd (Door.__set_open w d)) = PyState State.open
   /\ at_rest (snd (Door.__set_open w d)))
  /\ (Door.state d <> PyState State.opening ->
      fst (Door.__set_closed w d) = Return tt
      /\ Door.state (snd (Door.__set_closed w d)) = PyState State.closed
      /\ at_rest (snd (Door.__set_closed w d))).
Proof.
  intros reach; split; intros ne.
  - rewrite (set_open_other w d ne); cbn [fst snd].
    destruct (set_state_forces w State.open d eq_refl) as (_ & _ & st).
    repeat split; [exact st | | | | |];
      apply (reachable_at_rest _ (reach_set_state d w State.open reach));
      rewrite st; reflexivity.
  - rewrite (set_closed_other w d ne); cbn [fst snd].
    destruct (set_state_forces w State.closed d eq_refl) as (_ & _ & st).
    repeat split; [exact st | | | | |];
      apply (reachable_at_rest _ (reach_set_state d w State.closed reach));
      rewrite st; reflexivity.
Qed.

Lemma limit_switch_stops_motor_witness :
  (Door.state door_opening <> PyState State.closing ->
   fst (Door.__set_open upper_after_2100ms door_opening) = Return tt
   /\ Door.state (snd (Door.__set_open upper_after_2100ms door_opening))
      = PyState State.open
   /\ at_rest (snd (Door.__set_open upper_after_2100ms door_opening)))
  /\ (Door.state door_opening <> PyState State.opening ->
      fst (Door.__set_closed upper_after_2100ms door_opening) = Return tt
      /\ Door.state (snd (Door.__set_closed upper_after_2100ms door_opening))
         = PyState State.closed
      /\ at_rest (snd (Door.__set_closed upper_after_2100ms door_opening))).
Proof.
  apply (limit_switch_stops_motor upper_after_2100ms door_opening).
  exact (reach_set_state _ _ State.opening
           (reach_set_state _ (mk_world t_start false true) State.closed
              reach_fresh)).
Defined.

(** ** Which callbacks can raise *)

(** On a door the program can hold, the blocked check and the lower-switch
    handler always return: the timestamp they add the threshold to is set
    whenever they read it. *)
Theorem lower_handler_and_check_return (w : World) (d : Door.t) :
  reachable d ->
  fst (Door.__check_blocked w d) = Return 0
  /\ fst (Door.__set_closed w d) = Return tt.
Proof.
  intros reach.
  destruct (reachable_timestamps d reach) as (io & ic & _).
  unfold is_set in io, ic.
  destruct (py_eq_spec (Door.state d) State.opening) as [eo|no].
  - destruct (Door.opening_started d) as [t0|] eqn:started;
      [| exfalso; apply io in eo; congruence].
    rewrite (check_blocked_going_up w d t0 eo started).
    rewrite (set_closed_opening w d t0 eo started).
    split; reflexivity.
  - rewrite (set_closed_other w d no); split; [| reflexivity].
    destruct (py_eq_spec (Door.state d) State.closing) as [ec|nc].
    + destruct (Door.closing_started d) as [t0|] eqn:started;
        [| exfalso; apply ic in ec; congruence].
      rewrite (check_blocked_going_down w d t0 ec started); reflexivity.
    + rewrite check_blocked_idle; [reflexivity |].
      unfold is_moving; apply py_eq_false in no, nc; rewrite no, nc.
      reflexivity.
Qed.

Lemma lower_handler_and_check_return_witness :
  fst (Door.__check_blocked lower_after_2100ms door_opening) = Return 0
  /\ fst (Door.__set_closed lower_after_2100ms door_opening) = Return tt.
Proof.
  apply (lower_handler_and_check_return lower_after_2100ms door_opening).
  exact (reach_set_state _ _ State.opening
           (reach_set_state _ (mk_world t_start false true) State.closed
              reach_fresh)).
Defined.

(** On a door the program can hold whose state is a member of [State],
    a button press raises exactly when the door is moving ([Opening] or
    [Closing]); from the six other states it never raises. *)
Theorem button_raises_iff_moving (ws : list World) (d : Door.t)
    (s : State.t) :
  reachable d ->
  Door.state d = PyState s ->
  (raises (fst (Door.__toggle ws d)) <->
   s = State.opening \/ s = State.closing).
Proof.
  intros reach st; apply reachable_timestamps in reach.
  assert (press : forall desired : State.t,
             toggle_state s = Return (PyState desired) ->
             Door.__toggle ws d = Door.__set_desired ws desired d).
  { intros desired ok.
    unfold Door.__toggle, Door.bind at 1, Door.get, Door.bind at 1, Door.lift.
    rewrite st, ok; reflexivity. }
  assert (quiet : forall desired : pyobj,
             desired = PyState State.open \/ desired = PyState State.closed ->
             ~ raises (fst (Door.__set_desired ws desired d))).
  { intros desired target [e H].
    exact (set_desired_no_raise ws desired d target reach e H). }
  assert (loud : forall desired : State.t,
             transition_state s desired = Raise ValueError ->
             raises (fst (Door.__set_desired ws desired d))).
  { intros desired rejected.
    rewrite set_desired_rejected by (rewrite st; exact rejected).
    apply raises_Raise. }
  split.
  - intros H; destruct s; auto; exfalso;
      (rewrite (press State.open eq_refl) in H
       || rewrite (press State.closed eq_refl) in H);
      revert H; apply quiet; auto.
  - intros [-> | ->].
    + rewrite (press State.opening_stopped eq_refl); apply loud; reflexivity.
    + rewrite (press State.closing_stopped eq_refl); apply loud; reflexivity.
Qed.

Lemma button_raises_iff_moving_witness :
  raises (fst (Door.__toggle [lower_after_2100ms] door_closed)) <->
  State.closed = State.opening \/ State.closed = State.closing.
Proof.
  apply (button_raises_iff_moving [lower_after_2100ms] door_closed
           State.closed).
  - exact (reach_set_state _ lower_at_start State.closed reach_fresh).
  - reflexivity.
Defined.

(** ** Invariants across the entry points *)

(** Every entry point of the controller, whether it returns, raises or is
    cut short, leaves a door the program can hold in a state where the
    timestamp invariant holds and the motor pins agree with the state. *)
Theorem entry_points_keep_invariants (d : Door.t) (w : World)
    (ws : list World) (desired : pyobj) :
  reachable d ->
  (timestamps_inv (snd (Door.__toggle ws d))
   /\ motor_follows (snd (Door.__toggle ws d)))
  /\ (timestamps_inv (snd (Door.__set_open w d))
      /\ motor_follows (snd (Door.__set_open w d)))
  /\ (timestamps_inv (snd (Door.__set_closed w d))
      /\ motor_follows (snd (Door.__set_closed w d)))
  /\ (timestamps_inv (snd (Door.__set_desired ws desired d))
      /\ motor_follows (snd (Door.__set_desired ws desired d)))
  /\ (timestamps_inv (snd (Door.__check_blocked w d))
      /\ motor_follows (snd (Door.__check_blocked w d))).
Proof.
  intros reach.
  assert (both : forall d', reachable d' ->
                            timestamps_inv d' /\ motor_follows d').
  { intros d' reach'; split;
      [apply reachable_timestamps | apply reachable_motor]; exact reach'. }
  repeat apply conj; apply both ||
    (apply reachable_timestamps || apply reachable_motor);
    auto using reachable_toggle, reachable_set_open, reachable_set_closed,
      reachable_set_desired, reachable_check_blocked.
Qed.

Lemma entry_points_keep_invariants_witness :
  (timestamps_inv (snd (Door.__toggle [lower_after_2100ms] door_closing))
   /\ motor_follows (snd (Door.__toggle [lower_after_2100ms] door_closing)))
  /\ (timestamps_inv (snd (Door.__set_open upper_after_2100ms door_closing))
      /\ motor_follows (snd (Door.__set_open upper_after_2100ms door_closing)))
  /\ (timestamps_inv (snd (Door.__set_closed upper_after_2100ms door_closing))
      /\ motor_follows
           (snd (Door.__set_closed upper_after_2100ms door_closing)))
  /\ (timestamps_inv
        (snd (Door.__set_desired [lower_after_2100ms] State.open
                door_closing))
      /\ motor_follows
           (snd (Door.__set_desired [lower_after_2100ms] State.open
                   door_closing)))
  /\ (timestamps_inv
        (snd (Door.__check_blocked upper_after_2100ms door_closing))
      /\ motor_follows
           (snd (Door.__check_blocked upper_after_2100ms door_closing))).
Proof.
  apply (entry_points_keep_invariants door_closing upper_after_2100ms
           [lower_after_2100ms] State.open).
  exact (reach_set_state _ _ State.closing
           (reach_set_state _ upper_at_start State.open reach_fresh)).
Defined.

(** ** The schedule opens the door over one interval *)






